(** * libgorjun: a client of the Gorjun file repository

    Shallow embedding of [auth.go] and [gorjun.go].

    A Go [string] is a sequence of bytes and is modelled by [string] (a list
    of 8-bit [ascii]); [len] is [String.length].  A method with receiver
    [g *GorjunServer] that assigns fields of [g] takes the record and
    returns the updated one.  Every call that leaves the package (the
    operating system, [net/http], [encoding/json], [openpgp]) is an
    [effect]; a method is a finite tree of such calls ([prog]), and
    [run] interprets the tree against an environment, collecting the calls
    that were made.  The environment answers a call by its arguments
    alone: the disk and the server do not change while one method runs. *)

From stdpp Require Import base option list strings gmap sorting.
From Stdlib Require Import ZArith Ascii String.

Local Open Scope stdpp_scope.

(** ** Go [error] values *)

(** The [syscall.Errno] values the code can tell apart. *)
Inductive Errno : Type :=
| ENOENT
| EACCES
| Errno_other (text : string).

Definition Errno_text (e : Errno) : string :=
  match e with
  | ENOENT => "no such file or directory"
  | EACCES => "permission denied"
  | Errno_other text => text
  end.

(** An [error] is either a plain message ([fmt.Errorf], [errors.New] and the
    errors of the libraries) or an [*os.PathError]. *)
Inductive error : Type :=
| errorString (s : string)
| PathError (Op Path : string) (Err : Errno).

(** [err.Error()], which is also what the verbs [%v] and [%s] print. *)
Definition Error (e : error) : string :=
  match e with
  | errorString s => s
  | PathError op path err => op +:+ " " +:+ path +:+ ": " +:+ Errno_text err
  end.

(** [os.IsNotExist]; a Go [error] that may be [nil] is an [option error]. *)
Definition IsNotExist (err : option error) : bool :=
  match err with
  | Some (PathError _ _ ENOENT) => true
  | _ => false
  end.

(** A Go pair [(v, err)] of which [v] is only meaningful when [err] is
    [nil]. *)
Inductive result (A : Type) : Type :=
| Ok (a : A)
| Err (e : error).
Arguments Ok {A} a.
Arguments Err {A} e.

(** ** Data of the packages the code imports *)

Module packet.
(** [packet.UserId]. *)
Record UserId : Type := {
  Id : string;
  Name : string;
  Comment : string;
  Email : string
}.

(** [packet.PrivateKey]: the flag the code's callee inspects and the key
    bytes, which stay opaque. *)
Record PrivateKey : Type := {
  Encrypted : bool;
  KeyData : string
}.
End packet.

Module openpgp.
(** [openpgp.Identity]. *)
Record Identity : Type := {
  Name : string;
  UserId : packet.UserId
}.

(** [openpgp.Entity]; [PrivateKey] is a pointer that may be [nil], and
    [Identities] is the Go map [map[string]*Identity]. *)
Record Entity : Type := {
  PrimaryKey : string;
  PrivateKey : option packet.PrivateKey;
  Identities : gmap string Identity
}.

(** [openpgp.EntityList], a slice of entities. *)
Definition EntityList : Type := list Entity.
End openpgp.

Module http.
(** [http.Response]: the body is a stream, named by a handle. *)
Record Response : Type := {
  Status : string;
  StatusCode : Z;
  Body : nat
}.

(** [http.Request]; its field [Body] is an [io.Reader] that may be [nil],
    named by the handle of the buffer it reads from. *)
Record Request : Type := {
  Method : string;
  URL : string;
  Header : gmap string (list string);
  Request_Body : option nat
}.

(** [req.Header.Set(key, value)], for a key already in canonical form. *)
Definition Header_Set (key value : string) (req : Request) : Request :=
  {| Method := Method req; URL := URL req;
     Header := <[key := [value]]> (Header req);
     Request_Body := Request_Body req |}.

Definition StatusOK : Z := 200.
End http.

(** ** The package's types (gorjun.go) *)

(** GorjunServer is a representation for Gorjun bucket. *)
Record GorjunServer : Type := {
  Username : string;
  Email : string;
  Hostname : string;
  GPGDirectory : string;
  Token : string;
  TokenCode : string;
  Passphrase : string
}.

Record GorjunFileHash : Type := {
  MD5 : string;
  SHA : string
}.

Record GorjunFile : Type := {
  Id : string;
  Size : Z;
  Name : string;
  Owner : list string;
  Hash : GorjunFileHash
}.

(** The zero value [new(GorjunServer)]. *)
Definition new_GorjunServer : GorjunServer :=
  {| Username := ""; Email := ""; Hostname := ""; GPGDirectory := "";
     Token := ""; TokenCode := ""; Passphrase := "" |}.

(** Field assignments [g.F = v]. *)
Definition set_Username (v : string) (g : GorjunServer) : GorjunServer :=
  {| Username := v; Email := Email g; Hostname := Hostname g;
     GPGDirectory := GPGDirectory g; Token := Token g;
     TokenCode := TokenCode g; Passphrase := Passphrase g |}.
Definition set_Email (v : string) (g : GorjunServer) : GorjunServer :=
  {| Username := Username g; Email := v; Hostname := Hostname g;
     GPGDirectory := GPGDirectory g; Token := Token g;
     TokenCode := TokenCode g; Passphrase := Passphrase g |}.
Definition set_GPGDirectory (v : string) (g : GorjunServer) : GorjunServer :=
  {| Username := Username g; Email := Email g; Hostname := Hostname g;
     GPGDirectory := v; Token := Token g;
     TokenCode := TokenCode g; Passphrase := Passphrase g |}.
Definition set_Token (v : string) (g : GorjunServer) : GorjunServer :=
  {| Username := Username g; Email := Email g; Hostname := Hostname g;
     GPGDirectory := GPGDirectory g; Token := v;
     TokenCode := TokenCode g; Passphrase := Passphrase g |}.
Definition set_TokenCode (v : string) (g : GorjunServer) : GorjunServer :=
  {| Username := Username g; Email := Email g; Hostname := Hostname g;
     GPGDirectory := GPGDirectory g; Token := Token g;
     TokenCode := v; Passphrase := Passphrase g |}.
Definition set_Passphrase (v : string) (g : GorjunServer) : GorjunServer :=
  {| Username := Username g; Email := Email g; Hostname := Hostname g;
     GPGDirectory := GPGDirectory g; Token := Token g;
     TokenCode := TokenCode g; Passphrase := v |}.

(** ** Calls that leave the package *)

(** An open [*os.File], named by its descriptor. *)
Definition File : Type := nat.

Inductive effect : Type -> Type :=
(* os *)
| Getenv (key : string) : effect string
| Stat (name : string) : effect (option error)
| Open (name : string) : effect (result File)
| FileClose (f : File) : effect unit
(* net/http and io/ioutil *)
| HttpGet (url : string) : effect (result http.Response)
| HttpPost (url contentType body : string) : effect (result http.Response)
| NewRequest (method url : string) (body : option nat)
    : effect (result http.Request)
| ClientDo (req : http.Request) : effect (result http.Response)
| ReadAll (body : nat) : effect (result string)
| BodyClose (body : nat) : effect unit
(* mime/multipart and io; [NewWriter] names the writer and the buffer it
   writes to by one handle *)
| NewWriter : effect nat
| CreateFormFile (w : nat) (fieldname filename : string) : effect (result nat)
| CreateFormField (w : nat) (fieldname : string) : effect (result nat)
| Copy (dst : nat) (src : File) : effect (result Z)
| PartWrite (dst : nat) (p : string) : effect (result Z)
| WriterClose (w : nat) : effect unit
| FormDataContentType (w : nat) : effect string
(* encoding/json, decoding into a [[]GorjunFile] *)
| JsonUnmarshal (data : string) : effect (result (list GorjunFile))
(* openpgp *)
| ReadKeyRing (f : File) : effect (result openpgp.EntityList)
| Decrypt (pk : packet.PrivateKey) (passphrase : string)
    : effect (packet.PrivateKey * option error)
| ArmoredDetachSign (signer : openpgp.Entity) (message : string)
    : effect (result string).

(** A call together with its arguments, as it appears in a trace. *)
Inductive call : Type :=
| Call {X : Type} (e : effect X).

(** A method body: it returns, panics, or makes a call and goes on with
    the answer. *)
Inductive prog (A : Type) : Type :=
| Ret (a : A)
| Panic (msg : string)
| Vis {X : Type} (e : effect X) (k : X -> prog A).
Arguments Ret {A} a.
Arguments Panic {A} msg.
Arguments Vis {A X} e k.

Fixpoint bind {A B : Type} (p : prog A) (f : A -> prog B) : prog B :=
  match p with
  | Ret a => f a
  | Panic msg => Panic msg
  | Vis e k => Vis e (fun x => bind (k x) f)
  end.

#[global] Instance prog_ret : MRet prog := @Ret.
#[global] Instance prog_bind : MBind prog := fun A B f p => bind p f.

(** One call, returning its answer. *)
Definition trigger {X : Type} (e : effect X) : prog X := Vis e Ret.

(** [defer c] around the rest of a function body: [c] runs when the body
    returns and also when it panics. *)
Fixpoint defer {A : Type} (c : prog unit) (body : prog A) : prog A :=
  match body with
  | Ret a => bind c (fun _ => Ret a)
  | Panic msg => bind c (fun _ => Panic msg)
  | Vis e k => Vis e (fun x => defer c (k x))
  end.

(** How a method call ends. *)
Inductive outcome (A : Type) : Type :=
| Returned (a : A)
| Panicked (msg : string).
Arguments Returned {A} a.
Arguments Panicked {A} msg.

(** The environment answers every call. *)
Definition env : Type := forall X : Type, effect X -> X.

(** Running a method in an environment: the calls made, in order, and the
    way the method ended. *)
Fixpoint run {A : Type} (h : env) (p : prog A) : list call * outcome A :=
  match p with
  | Ret a => ([], Returned a)
  | Panic msg => ([], Panicked msg)
  | Vis e k =>
      let r := run h (k (h _ e)) in
      (Call e :: r.1, r.2)
  end.

(** ** net/url: form encoding *)

Module url.
(** [shouldEscape(c, encodeQueryComponent)]: letters, digits and the four
    marks [-], [_], [.], [~] are kept, every other byte is escaped. *)
Definition shouldEscape (c : ascii) : bool :=
  let n := nat_of_ascii c in
  if ((97 <=? n) && (n <=? 122) || (65 <=? n) && (n <=? 90)
      || (48 <=? n) && (n <=? 57))%nat
  then false
  else match c with
       | "-" | "_" | "." | "~" => false
       | _ => true
       end%char.

(** [upperhex[i]] for [i < 16]. *)
Definition upperhex (i : nat) : ascii :=
  default "0"%char (list_ascii_of_string "0123456789ABCDEF" !! i).

(** [url.QueryEscape]: a space becomes [+], any other escaped byte [c]
    becomes [%] followed by the two hexadecimal digits [c>>4] and
    [c&15]. *)
Fixpoint QueryEscape (s : string) : string :=
  match s with
  | EmptyString => EmptyString
  | String c rest =>
      if shouldEscape c then
        if Ascii.eqb c " " then String "+" (QueryEscape rest)
        else String "%" (String (upperhex (nat_of_ascii c / 16)%nat)
                           (String (upperhex (nat_of_ascii c mod 16)%nat)
                              (QueryEscape rest)))
      else String c (QueryEscape rest)
  end.

(** The value of a hexadecimal digit ([unhex], with [ishex] as the
    domain). *)
Definition unhex (c : ascii) : option nat :=
  let n := nat_of_ascii c in
  if ((48 <=? n) && (n <=? 57))%nat then Some (n - 48)%nat
  else if ((97 <=? n) && (n <=? 102))%nat then Some (n - 97 + 10)%nat
  else if ((65 <=? n) && (n <=? 70))%nat then Some (n - 65 + 10)%nat
  else None.

(** [url.QueryUnescape], by which the receiver of a form reads a field
    back; [None] is its [EscapeError].  The package does not call it: it
    is here to say what an escaped field stands for. *)
Fixpoint QueryUnescape (s : string) : option string :=
  match s with
  | EmptyString => Some EmptyString
  | String "%" (String a (String b rest)) =>
      hi ← unhex a;
      lo ← unhex b;
      String (ascii_of_nat (hi * 16 + lo)) <$> QueryUnescape rest
  | String "%" _ => None
  | String "+" rest => String " " <$> QueryUnescape rest
  | String c rest => String c <$> QueryUnescape rest
  end.

(** [url.Values], the Go map [map[string][]string]. *)
Abbreviation Values := (gmap string (list string)).

(** [strings.Join]-like glue of the encoded pairs with [&]. *)
Fixpoint join_amp (l : list string) : string :=
  match l with
  | [] => ""
  | [x] => x
  | x :: rest => x +:+ "&" +:+ join_amp rest
  end.

(** [Values.Encode]: the keys in sorted order, each value of a key as
    [key=value] with both sides escaped, the pairs joined by [&]. *)
Definition Encode (v : Values) : string :=
  let keys := merge_sort String.le (fst <$> map_to_list v) in
  join_amp
    (k ← keys;
     (fun val => QueryEscape k +:+ "=" +:+ QueryEscape val)
       <$> default [] (v !! k)).
End url.

(** ** auth.go *)

(** GetAuthTokenCode is a first step of authentication - it requests a
    special code from the server.  This code needs to be PGP-signed
    later. *)
Definition GetAuthTokenCode (g : GorjunServer)
  : prog (GorjunServer * option error) :=
  r ← trigger (HttpGet ("https://" +:+ Hostname g
                          +:+ "/kurjun/rest/auth/token?user=" +:+ Username g));
  match r with
  | Err err =>
      Ret (g, Some (errorString
                      ("Failed to retrieve unsigned token: " +:+ Error err)))
  | Ok resp =>
      d ← trigger (ReadAll (http.Body resp));
      trigger (BodyClose (http.Body resp));;
      match d with
      | Err err =>
          Ret (g, Some (errorString
                          ("Failed to read body from " +:+ Hostname g
                             +:+ ": " +:+ Error err)))
      | Ok data => Ret (set_TokenCode data g, None)
      end
  end.

(** GetActiveToken will send signed message to server and return active
    token that will be used for authenticated requests. *)
Definition GetActiveToken (g : GorjunServer) (signed : string)
  : prog (GorjunServer * option error) :=
  let signed := "-----BEGIN PGP SIGNED MESSAGE-----
Hash: SHA256

" +:+ TokenCode g +:+ "
" +:+ signed +:+ "
" in
  let form : url.Values :=
    <["message" := [signed]]> (<["user" := [Username g]]> ∅) in
  let body := url.Encode form in
  r ← trigger (HttpPost ("https://" +:+ Hostname g
                           +:+ "/kurjun/rest/auth/token")
                 "application/x-www-form-urlencoded" body);
  match r with
  | Err err =>
      Ret (g, Some (errorString
                      ("Failed to retrieve active token: " +:+ Error err)))
  | Ok resp =>
      d ← trigger (ReadAll (http.Body resp));
      trigger (BodyClose (http.Body resp));;
      match d with
      | Err err =>
          Ret (g, Some (errorString
                          ("Failed to read body from " +:+ Hostname g
                             +:+ ": " +:+ Error err)))
      | Ok data =>
          let g := set_Token data g in
          if negb (String.length (Token g) =? 64)%nat then
            let reason := Token g in
            let g := set_Token "" g in
            Ret (g, Some (errorString
                            ("Failed to retrieve active token: " +:+ reason)))
          else Ret (g, None)
      end
  end.

(** The inner loop of [getKeyByEmail] over the identities of one entity,
    in the order the [range] over the Go map happens to deliver them. *)
Fixpoint identities_have (idents : list openpgp.Identity) (email : string)
  : bool :=
  match idents with
  | [] => false
  | ident :: rest =>
      if String.eqb (packet.Email (openpgp.UserId ident)) email then true
      else identities_have rest email
  end.

(** The values of the Go map [entity.Identities] in one iteration order. *)
Definition identity_values (entity : openpgp.Entity) : list openpgp.Identity :=
  snd <$> map_to_list (openpgp.Identities entity).

(** [getKeyByEmail]: the receiver is not used, no field is assigned and no
    call is made; a [nil] result is [None]. *)
Fixpoint getKeyByEmail (g : GorjunServer) (keyring : openpgp.EntityList)
    (email : string) : option openpgp.Entity :=
  match keyring with
  | [] => None
  | entity :: rest =>
      if identities_have (identity_values entity) email then Some entity
      else getKeyByEmail g rest email
  end.

(** [f.Close()] on a [*os.File] that may be [nil]: on [nil] it returns
    [ErrInvalid] without a call; the code ignores what it returns. *)
Definition Close (f : option File) : prog unit :=
  match f with
  | None => Ret tt
  | Some fd => trigger (FileClose fd)
  end.

(** The file of a pair [(f, err)] returned by [os.Open]. *)
Definition file_of (r : result File) : option File :=
  match r with
  | Ok f => Some f
  | Err _ => None
  end.

(** [privateKey.PrivateKey = pk] on the entity [privateKey] points to. *)
Definition set_PrivateKey (pk : option packet.PrivateKey)
    (e : openpgp.Entity) : openpgp.Entity :=
  {| openpgp.PrimaryKey := openpgp.PrimaryKey e;
     openpgp.PrivateKey := pk;
     openpgp.Identities := openpgp.Identities e |}.

Definition nil_dereference : string :=
  "runtime error: invalid memory address or nil pointer dereference".

(** The last step of [SignToken] (lines 140 to 148), once the private
    entity is found: decrypt when a passphrase is given, then sign.  What
    [Decrypt] returns is dropped; the key it leaves behind is signed
    with. *)
Definition sign_with (g : GorjunServer) (token : string)
    (privateKey : openpgp.Entity)
  : prog (GorjunServer * string * option error) :=
  privateKey ←
    (if negb (String.eqb (Passphrase g) "") then
       match openpgp.PrivateKey privateKey with
       | None => Panic nil_dereference
       | Some pk =>
           r ← trigger (Decrypt pk (Passphrase g));
           Ret (set_PrivateKey (Some r.1) privateKey)
       end
     else Ret privateKey);
  outBuf ← trigger (ArmoredDetachSign privateKey token);
  match outBuf with
  | Err err =>
      Ret (g, "", Some (errorString ("Failed to sign token: " +:+ Error err)))
  | Ok outBuf => Ret (g, outBuf, None)
  end.

(** The second half of [SignToken] (lines 127 to 148), once the public
    entity is found: open and read the private keyring, find the private
    entity, sign. *)
Definition sign_with_secring (g : GorjunServer) (token : string)
  : prog (GorjunServer * string * option error) :=
  priFile ← trigger (Open (GPGDirectory g +:+ "/secring.gpg"));
  defer (Close (file_of priFile))
  match priFile with
  | Err err =>
      Ret (g, "", Some (errorString
                          ("Failed to open private keyring file: "
                             +:+ Error err)))
  | Ok priFile =>
  secring ← trigger (ReadKeyRing priFile);
  match secring with
  | Err err =>
      Ret (g, "", Some (errorString
                          ("Failed to read private keyring: " +:+ Error err)))
  | Ok secring =>
  match getKeyByEmail g secring (Email g) with
  | None =>
      Ret (g, "", Some (errorString
                          ("Private key for " +:+ Email g
                             +:+ " was not found")))
  | Some privateKey => sign_with g token privateKey
  end end end.

(** SignToken will sign with GnuPG provided token and return signed
    version (lines 100 to 126, then the two steps above). *)
Definition SignToken (g : GorjunServer) (token : string)
  : prog (GorjunServer * string * option error) :=
  if String.eqb (GPGDirectory g) "" then
    Ret (g, "", Some (errorString "GPG Directory was not specified"))
  else
  let pubringPath := GPGDirectory g +:+ "/pubring.gpg" in
  err ← trigger (Stat pubringPath);
  let pubringPath :=
    if IsNotExist err then GPGDirectory g +:+ "/pubring.kbx"
    else pubringPath in
  err ← trigger (Stat pubringPath);
  if IsNotExist err then
    Ret (g, "", Some (errorString "Can't find pubring.gpg nor pubring.kbx"))
  else
  pukFile ← trigger (Open (GPGDirectory g +:+ "/pubring.gpg"));
  defer (Close (file_of pukFile))
  match pukFile with
  | Err err =>
      Ret (g, "", Some (errorString
                          ("Failed to open public keyring file: "
                             +:+ Error err)))
  | Ok pukFile =>
  pubring ← trigger (ReadKeyRing pukFile);
  match pubring with
  | Err err =>
      Ret (g, "", Some (errorString
                          ("Failed to read public keyring: " +:+ Error err)))
  | Ok pubring =>
  match getKeyByEmail g pubring (Email g) with
  | None =>
      Ret (g, "", Some (errorString
                          ("Public key for " +:+ Email g
                             +:+ " was not found")))
  | Some publicKey => sign_with_secring g token
  end end end.

(** The three steps of [AuthenticateUser] (lines 30 to 42): request the
    code, sign it, exchange it; the first error ends the handshake. *)
Definition handshake (g : GorjunServer) : prog (GorjunServer * option error) :=
  '(g, err) ← GetAuthTokenCode g;
  match err with
  | Some err => Ret (g, Some err)
  | None =>
  '(g, sign, err) ← SignToken g (TokenCode g);
  match err with
  | Some err => Ret (g, Some err)
  | None =>
  '(g, err) ← GetActiveToken g sign;
  match err with
  | Some err => Ret (g, Some err)
  | None => Ret (g, None)
  end end end.

(** AuthenticateUser will try to authenticate user by downloading his token
    code, signing it with GPG and sending it back to server to get user
    token.  If gpgdir is empty, the default ($HOME/.gnupg) will be used
    (lines 21 to 29, then the handshake). *)
Definition AuthenticateUser (g : GorjunServer)
    (username email passphrase gpgdir : string)
  : prog (GorjunServer * option error) :=
  let g := set_Username username g in
  let g := set_Email email g in
  let g := set_Passphrase passphrase g in
  g ← (if negb (String.eqb gpgdir "") then Ret (set_GPGDirectory gpgdir g)
       else home ← trigger (Getenv "HOME");
            Ret (set_GPGDirectory (home +:+ "/.gnupg") g));
  handshake g.

(** ** path/filepath *)

Module filepath.
Fixpoint strip_slashes (rev_path : list ascii) : list ascii :=
  match rev_path with
  | "/"%char :: rest => strip_slashes rest
  | _ => rev_path
  end.

Fixpoint until_slash (rev_path : list ascii) : list ascii :=
  match rev_path with
  | [] => []
  | c :: rest => if Ascii.eqb c "/" then [] else c :: until_slash rest
  end.

(** [filepath.Base] on a system whose separator is [/]: the last element
    of the path, after the trailing slashes are removed. *)
Definition Base (path : string) : string :=
  if String.eqb path "" then "."
  else
    let last := until_slash (strip_slashes (rev (list_ascii_of_string path))) in
    match last with
    | [] => "/"
    | _ => string_of_list_ascii (rev last)
    end.
End filepath.

(** ** gorjun.go *)

(** The body shared by [ListUserFiles] and [GetFileByName] after the
    request: read the body, close it, decode it. *)
Definition read_files (g : GorjunServer) (resp : http.Response)
  : prog (GorjunServer * list GorjunFile * option error) :=
  d ← trigger (ReadAll (http.Body resp));
  trigger (BodyClose (http.Body resp));;
  match d with
  | Err err =>
      Ret (g, [], Some (errorString
                          ("Failed to read body from " +:+ Hostname g
                             +:+ ": " +:+ Error err)))
  | Ok data =>
      f ← trigger (JsonUnmarshal data);
      match f with
      | Err err =>
          Ret (g, [], Some (errorString
                              ("Failed to unmarshal contents from "
                                 +:+ Hostname g +:+ ": " +:+ Error err)))
      | Ok f => Ret (g, f, None)
      end
  end.

(** ListUserFiles returns a list of files that belongs to user. *)
Definition ListUserFiles (g : GorjunServer)
  : prog (GorjunServer * list GorjunFile * option error) :=
  r ← trigger (HttpGet ("https://" +:+ Hostname g
                          +:+ "/kurjun/rest/raw/info?owner=" +:+ Username g));
  match r with
  | Err err =>
      Ret (g, [], Some (errorString
                          ("Failed to retrieve file list from " +:+ Hostname g
                             +:+ ": " +:+ Error err)))
  | Ok resp => read_files g resp
  end.

(** GetFileByName will return information about a file with specified
    name. *)
Definition GetFileByName (g : GorjunServer) (filename : string)
  : prog (GorjunServer * list GorjunFile * option error) :=
  r ← trigger (HttpGet ("https://" +:+ Hostname g
                          +:+ "/kurjun/rest/raw/info?name=" +:+ filename));
  match r with
  | Err err =>
      Ret (g, [], Some (errorString
                          ("Failed to retrieve file information from "
                             +:+ Hostname g +:+ ": " +:+ Error err)))
  | Ok resp => read_files g resp
  end.

(** UploadFile will upload file and return it's ID after successful
    upload. *)
Definition UploadFile (g : GorjunServer) (filename : string)
  : prog (GorjunServer * string * option error) :=
  let fail (msg : string) : prog (GorjunServer * string * option error) :=
    Ret (g, "", Some (errorString msg)) in
  err ← trigger (Stat filename);
  if IsNotExist err then fail (filename +:+ " not found") else
  w ← trigger NewWriter;
  f ← trigger (Open filename);
  match f with
  | Err err => fail ("Failed to open file: " +:+ Error err)
  | Ok f =>
  defer (Close (Some f))
  (fw ← trigger (CreateFormFile w "file" (filepath.Base filename));
  match fw with
  | Err err => fail ("Failed to create file form: " +:+ Error err)
  | Ok fw =>
  n ← trigger (Copy fw f);
  match n with
  | Err err => fail ("Failed to copy file contents: " +:+ Error err)
  | Ok _ =>
  fw ← trigger (CreateFormField w "token");
  match fw with
  | Err err => fail ("Failed to create token form field: " +:+ Error err)
  | Ok fw =>
  n ← trigger (PartWrite fw (Token g));
  match n with
  | Err err => fail ("Failed to write token: " +:+ Error err)
  | Ok _ =>
  trigger (WriterClose w);;
  req ← trigger (NewRequest "POST"
                   ("https://" +:+ Hostname g +:+ "/kurjun/rest/raw/upload")
                   (Some w));
  match req with
  | Err err => fail ("Failed to create HTTP request: " +:+ Error err)
  | Ok req =>
  contentType ← trigger (FormDataContentType w);
  let req := http.Header_Set "Content-Type" contentType req in
  res ← trigger (ClientDo req);
  match res with
  | Err err => fail ("Failed to execute HTTP request: " +:+ Error err)
  | Ok res =>
  if negb (http.StatusCode res =? http.StatusOK)%Z then
    fail ("Upload failed. Server returned " +:+ http.Status res +:+ " error")
  else
  response ← trigger (ReadAll (http.Body res));
  match response with
  | Err err => fail ("Failed to read response body: " +:+ Error err)
  | Ok response => Ret (g, response, None)
  end end end end end end end)
  end.

(** RemoveFileByID will remove file with specified ID. *)
Definition RemoveFileByID (g : GorjunServer) (ID : string)
  : prog (GorjunServer * option error) :=
  req ← trigger (NewRequest "DELETE"
                   ("https://" +:+ Hostname g +:+ "/kurjun/rest/raw/delete?id="
                      +:+ ID +:+ "&token=" +:+ Token g)
                   None);
  match req with
  | Err err =>
      Ret (g, Some (errorString
                      ("Failed to remove file [" +:+ ID +:+ "]: "
                         +:+ Error err)))
  | Ok req =>
  res ← trigger (ClientDo req);
  match res with
  | Err err =>
      Ret (g, Some (errorString ("Failed to remove file: " +:+ Error err)))
  | Ok res =>
  if negb (http.StatusCode res =? http.StatusOK)%Z then
    Ret (g, Some (errorString
                    ("Can't remove file - HTTP request returned "
                       +:+ http.Status res +:+ " code")))
  else Ret (g, None)
  end end.

(** The run-time panic of [file[0]] on a slice of length 0. *)
Definition index_out_of_range : string :=
  "runtime error: index out of range [0] with length 0".

(** RemoveFile will delete file on gorjun with specified name.  If multiple
    files with the same name exists belong to the same user only the last
    one (most recent) will be removed.  (What is removed is [file[0]], the
    first record of the lookup.) *)
Definition RemoveFile (g : GorjunServer) (filename : string)
  : prog (GorjunServer * option error) :=
  '(g, file, err) ← GetFileByName g filename;
  match err with
  | Some err =>
      Ret (g, Some (errorString ("Failed to get file: " +:+ Error err)))
  | None =>
      match file !! 0%nat with
      | None => Panic index_out_of_range
      | Some file0 => RemoveFileByID g (Id file0)
      end
  end.

(** DownloadFile will download file with specified name into the specified
    output directory. *)
Definition DownloadFile (g : GorjunServer) (filename outputDirectory : string)
  : prog (GorjunServer * option error) :=
  Ret (g, None).

(** DownloadFileByID will download file with specified ID into the
    specified output directory. *)
Definition DownloadFileByID (g : GorjunServer) (ID outputDirectory : string)
  : prog (GorjunServer * option error) :=
  Ret (g, None).

(** ** Notions of the statements *)

(** The address of the challenge request. *)
Definition challenge_url (g : GorjunServer) : string :=
  "https://" +:+ Hostname g +:+ "/kurjun/rest/auth/token?user=" +:+ Username g.

(** The address of the token exchange. *)
Definition token_url (g : GorjunServer) : string :=
  "https://" +:+ Hostname g +:+ "/kurjun/rest/auth/token".

(** The address of the deletion request for the file [ID] with the token
    [token]. *)
Definition delete_url (g : GorjunServer) (ID token : string) : string :=
  "https://" +:+ Hostname g +:+ "/kurjun/rest/raw/delete?id=" +:+ ID
  +:+ "&token=" +:+ token.

Section answers.
Variable h : env.

(** The body the server returns to the challenge request of
    [GetAuthTokenCode], when the request and the read both succeed. *)
Definition challenge_body (g : GorjunServer) : option string :=
  match h _ (HttpGet (challenge_url g)) with
  | Ok resp =>
      match h _ (ReadAll (http.Body resp)) with
      | Ok data => Some data
      | Err _ => None
      end
  | Err _ => None
  end.

(** The request body [GetActiveToken] posts: the form with the fields
    [message] and [user]. *)
Definition token_exchange_form (g : GorjunServer) (message : string)
  : string :=
  url.Encode (<["message" := [message]]> (<["user" := [Username g]]> ∅)).

(** The body the server returns to the token-exchange POST carrying
    [message], when the request and the read both succeed. *)
Definition token_exchange_body (g : GorjunServer) (message : string)
  : option string :=
  match h _ (HttpPost (token_url g) "application/x-www-form-urlencoded"
               (token_exchange_form g message))
  with
  | Ok resp =>
      match h _ (ReadAll (http.Body resp)) with
      | Ok data => Some data
      | Err _ => None
      end
  | Err _ => None
  end.

(** A file that is not there: [os.Stat] and [os.Open] both report
    [ENOENT]. *)
Definition file_absent (name : string) : Prop :=
  h _ (Stat name) = Some (PathError "stat" name ENOENT)
  ∧ h _ (Open name) = Err (PathError "open" name ENOENT).

(** A file [os.Stat] finds. *)
Definition file_present (name : string) : Prop :=
  h _ (Stat name) = None.

(** One of the two public keyrings is found by the two [os.Stat] calls of
    [SignToken]. *)
Definition pubring_located (g : GorjunServer) : Prop :=
  IsNotExist (h _ (Stat (GPGDirectory g +:+ "/pubring.gpg"))) = false
  ∨ IsNotExist (h _ (Stat (GPGDirectory g +:+ "/pubring.kbx"))) = false.

(** [SignToken] gets as far as the lookup in the public ring [pubring]. *)
Definition public_ring_read (g : GorjunServer) (pubring : openpgp.EntityList)
  : Prop :=
  GPGDirectory g ≠ ""
  ∧ pubring_located g
  ∧ ∃ pukFile,
      h _ (Open (GPGDirectory g +:+ "/pubring.gpg")) = Ok pukFile
      ∧ h _ (ReadKeyRing pukFile) = Ok pubring.

(** The private keyring file opens and reads as [secring]. *)
Definition private_ring_read (g : GorjunServer) (secring : openpgp.EntityList)
  : Prop :=
  ∃ priFile,
    h _ (Open (GPGDirectory g +:+ "/secring.gpg")) = Ok priFile
    ∧ h _ (ReadKeyRing priFile) = Ok secring.

(** Both rings are read and both hold an entity for the email of [g]:
    [SignToken] gets as far as its last step with [privateKey]. *)
Definition ResolvedKeyPair (g : GorjunServer)
    (publicKey privateKey : openpgp.Entity) : Prop :=
  ∃ pubring secring,
    public_ring_read g pubring
    ∧ getKeyByEmail g pubring (Email g) = Some publicKey
    ∧ private_ring_read g secring
    ∧ getKeyByEmail g secring (Email g) = Some privateKey.

(** What [SignToken] relies on from the [openpgp] package, which is not
    part of the repository: signing refuses a key that is still encrypted,
    a failed [Decrypt] leaves the key as it was, a successful one leaves it
    decrypted, and a decrypted key signs. *)
Record openpgp_contract : Prop := {
  sign_refuses_encrypted :
    ∀ signer pk message,
      openpgp.PrivateKey signer = Some pk → packet.Encrypted pk = true →
      ∃ err, h _ (ArmoredDetachSign signer message) = Err err;
  decrypt_failure_keeps :
    ∀ pk passphrase,
      (h _ (Decrypt pk passphrase)).2 ≠ None →
      (h _ (Decrypt pk passphrase)).1 = pk;
  decrypt_success_clears :
    ∀ pk passphrase,
      (h _ (Decrypt pk passphrase)).2 = None →
      packet.Encrypted (h _ (Decrypt pk passphrase)).1 = false;
  sign_accepts_decrypted :
    ∀ signer pk message,
      openpgp.PrivateKey signer = Some pk → packet.Encrypted pk = false →
      ∃ signature, h _ (ArmoredDetachSign signer message) = Ok signature
}.
End answers.

(** An entity matches an email when one of its identities carries exactly
    that email. *)
Definition entity_matches (entity : openpgp.Entity) (email : string) : Prop :=
  ∃ name ident,
    openpgp.Identities entity !! name = Some ident
    ∧ packet.Email (openpgp.UserId ident) = email.

(** A line feed, Go's ["\n"]. *)
Definition LF : string := String "010" "".

(** The SignedEnvelope as the specification words it: the signed-message
    header line, the hash line, a blank line, the ChallengeCode, a newline,
    the signature block and a trailing newline. *)
Definition SignedEnvelope (ChallengeCode signature : string) : string :=
  ("-----BEGIN PGP SIGNED MESSAGE-----" +:+ LF)
  +:+ ("Hash: SHA256" +:+ LF)
  +:+ LF
  +:+ ChallengeCode
  +:+ LF
  +:+ signature
  +:+ LF.

(** The text a call writes into a form field, for [PartWrite]. *)
Definition form_write (c : call) : option string :=
  match c with
  | Call (PartWrite _ p) => Some p
  | Call _ => None
  end.

(** [always P p]: whatever the environment answers, if [p] returns then
    what it returns satisfies [P]. *)
Fixpoint always {A : Type} (P : A -> Prop) (p : prog A) : Prop :=
  match p with
  | Ret a => P a
  | Panic _ => True
  | Vis e k => ∀ x, always P (k x)
  end.

(** The fields of a session that say who the user is and where the keys
    and the server are; [Token] and [TokenCode] are the other two. *)
Definition same_identity (g g' : GorjunServer) : Prop :=
  Username g' = Username g
  ∧ Email g' = Email g
  ∧ Hostname g' = Hostname g
  ∧ GPGDirectory g' = GPGDirectory g
  ∧ Passphrase g' = Passphrase g.

(** ** A concrete environment

    A small world to run the methods in: a disk, a server and a toy
    [openpgp] in which a key is protected by the passphrase kept in its
    [KeyData]. *)

Record world : Type := {
  HOME : string;
  (* the files on disk, each with what [openpgp.ReadKeyRing] makes of it;
     an open file is named by its position *)
  disk : list (string * result openpgp.EntityList);
  (* the server: what a GET, the token POST and a built request return *)
  GET : string -> result http.Response;
  POST : string -> string -> result http.Response;
  DO : http.Request -> result http.Response;
  (* the response bodies, named by position *)
  bodies : list (result string);
  (* how [json.Unmarshal] decodes a body *)
  decode : string -> result (list GorjunFile)
}.

Fixpoint find_file (name : string)
    (d : list (string * result openpgp.EntityList)) (i : nat) : option nat :=
  match d with
  | [] => None
  | (n, _) :: rest =>
      if String.eqb n name then Some i else find_file name rest (S i)
  end.

Definition toy_Decrypt (pk : packet.PrivateKey) (passphrase : string)
  : packet.PrivateKey * option error :=
  if packet.Encrypted pk then
    if String.eqb passphrase (packet.KeyData pk) then
      ({| packet.Encrypted := false; packet.KeyData := packet.KeyData pk |},
       None)
    else
      (pk, Some (errorString
                   "openpgp: invalid data: private key checksum failure"))
  else (pk, None).

Definition toy_signature (message : string) : string :=
  "-----BEGIN PGP SIGNATURE-----
" +:+ String.rev message +:+ "
-----END PGP SIGNATURE-----".

Definition toy_ArmoredDetachSign (signer : openpgp.Entity) (message : string)
  : result string :=
  match openpgp.PrivateKey signer with
  | None =>
      Err (errorString
             "openpgp: invalid argument: signing key doesn't have a private key")
  | Some pk =>
      if packet.Encrypted pk then
        Err (errorString
               "openpgp: invalid argument: signing key is encrypted")
      else Ok (toy_signature message)
  end.

Definition world_env (w : world) : env :=
  fun X e =>
    match e in effect X return X with
    | Getenv key => if String.eqb key "HOME" then HOME w else ""
    | Stat name =>
        match find_file name (disk w) 0 with
        | Some _ => None
        | None => Some (PathError "stat" name ENOENT)
        end
    | Open name =>
        match find_file name (disk w) 0 with
        | Some fd => Ok fd
        | None => Err (PathError "open" name ENOENT)
        end
    | FileClose _ => tt
    | HttpGet url => GET w url
    | HttpPost url _ body => POST w url body
    | NewRequest method url body =>
        Ok {| http.Method := method; http.URL := url; http.Header := ∅;
              http.Request_Body := body |}
    | ClientDo req => DO w req
    | ReadAll body =>
        default (Err (errorString "http: read on closed response body"))
          (bodies w !! body)
    | BodyClose _ => tt
    | NewWriter => 0%nat
    | CreateFormFile _ _ _ => Ok 1%nat
    | CreateFormField _ _ => Ok 2%nat
    | Copy _ _ => Ok 0%Z
    | PartWrite _ p => Ok (Z.of_nat (String.length p))
    | WriterClose _ => tt
    | FormDataContentType _ => "multipart/form-data; boundary=b"
    | JsonUnmarshal data => decode w data
    | ReadKeyRing f =>
        match disk w !! f with
        | Some (_, ring) => ring
        | None => Err (errorString "invalid argument")
        end
    | Decrypt pk passphrase => toy_Decrypt pk passphrase
    | ArmoredDetachSign signer message => toy_ArmoredDetachSign signer message
    end.

(** A server that is not reachable, and an empty disk. *)
Definition offline : world :=
  {| HOME := "/home/user";
     disk := [];
     GET := fun _ => Err (errorString "dial tcp: no route to host");
     POST := fun _ _ => Err (errorString "dial tcp: no route to host");
     DO := fun _ => Err (errorString "dial tcp: no route to host");
     bodies := [];
     decode := fun _ =>
       Err (errorString "unexpected end of JSON input") |}.

(** An answer with status 200 whose body is [bodies !! body]. *)
Definition ok_response (body : nat) : http.Response :=
  {| http.Status := "200 OK"; http.StatusCode := 200; http.Body := body |}.

(** A server that answers every request with status 200 and the one
    body [data]; [json.Unmarshal] decodes it to [files]. *)
Definition answering (data : string) (files : result (list GorjunFile))
  : world :=
  {| HOME := "/home/user";
     disk := [];
     GET := fun _ => Ok (ok_response 0);
     POST := fun _ _ => Ok (ok_response 0);
     DO := fun _ => Ok (ok_response 0);
     bodies := [Ok data];
     decode := fun _ => files |}.

(** The same world with the files [d] on its disk. *)
Definition with_disk (d : list (string * result openpgp.EntityList))
    (w : world) : world :=
  {| HOME := HOME w; disk := d; GET := GET w; POST := POST w; DO := DO w;
     bodies := bodies w; decode := decode w |}.

(** The session used in the examples. *)
Definition user_session : GorjunServer :=
  {| Username := "user"; Email := "email@example.com";
     Hostname := "cdn.subut.ai:8338"; GPGDirectory := "/home/user/.gnupg";
     Token := ""; TokenCode := "0123456789abcdef0123456789abcdef";
     Passphrase := "" |}.

(** A string of 64 bytes, as the server issues for a token. *)
Definition token64 : string :=
  "0123456789abcdef0123456789abcdef0123456789abcdef0123456789abcdef".

(** Two records that share the name ["libgorjun-test"]. *)
Definition two_files : list GorjunFile :=
  [ {| Id := "id-1"; Size := 20; Name := "libgorjun-test";
       Owner := ["user"]; Hash := {| MD5 := "md5-1"; SHA := "sha-1" |} |};
    {| Id := "id-2"; Size := 20; Name := "libgorjun-test";
       Owner := ["user"]; Hash := {| MD5 := "md5-2"; SHA := "sha-2" |} |} ].

(** An entity with one identity for [email]; [pk] is its private key. *)
Definition entity_for (email : string) (pk : option packet.PrivateKey)
  : openpgp.Entity :=
  {| openpgp.PrimaryKey := "public key of " +:+ email;
     openpgp.PrivateKey := pk;
     openpgp.Identities :=
       {[ "User <" +:+ email +:+ ">" :=
            {| openpgp.Name := "User <" +:+ email +:+ ">";
               openpgp.UserId :=
                 {| packet.Id := "User <" +:+ email +:+ ">";
                    packet.Name := "User"; packet.Comment := "";
                    packet.Email := email |} |} ]} |}.

(** A private key protected by the passphrase [secret]. *)
Definition protected_key (secret : string) : packet.PrivateKey :=
  {| packet.Encrypted := true; packet.KeyData := secret |}.

(** A world without network whose key directory [/home/user/.gnupg] holds
    an old-style public keyring and a private keyring. *)
Definition key_directory (pubring secring : openpgp.EntityList) : world :=
  with_disk [ ("/home/user/.gnupg/pubring.gpg", Ok pubring);
              ("/home/user/.gnupg/secring.gpg", Ok secring) ] offline.

(** The same with the public keys in [pubring.kbx] only, as GnuPG 2.1
    keeps them. *)
Definition key_directory_kbx (pubring secring : openpgp.EntityList) : world :=
  with_disk [ ("/home/user/.gnupg/pubring.kbx", Ok pubring);
              ("/home/user/.gnupg/secring.gpg", Ok secring) ] offline.

(** A key directory whose two rings hold the user's entity, the private
    key protected by the passphrase ["s3cret"]. *)
Definition protected_directory : world :=
  key_directory [entity_for "email@example.com" None]
    [entity_for "email@example.com" (Some (protected_key "s3cret"))].

(** ** auth.go: decodePrivateKey

    [decodePrivateKey] calls two packages the other methods do not use,
    [armor] and the packet reader, so its calls have a type of their own;
    a body is a tree of these calls as before. *)

Module armor.
(** [armor.Block]: the block type and the body, an [io.Reader] named by a
    handle. *)
Record Block : Type := {
  Type_ : string;
  Body : nat
}.
End armor.

Module decode.
(** A packet as [reader.Next] returns it: a [*packet.PrivateKey], or a
    packet of another type, named by its tag. *)
Inductive Packet : Type :=
| PrivateKeyPacket (key : packet.PrivateKey)
| OtherPacket (tag : nat).

Inductive effect : Type -> Type :=
| Open (name : string) : effect (result File)
| FileClose (f : File) : effect unit
| ArmorDecode (in_ : File) : effect (result armor.Block)
(* [reader.Next()] on [packet.NewReader(body)] *)
| Next (body : nat) : effect (result Packet).

Inductive call : Type :=
| Call {X : Type} (e : effect X).

Inductive prog (A : Type) : Type :=
| Ret (a : A)
| Vis {X : Type} (e : effect X) (k : X -> prog A).
Arguments Ret {A} a.
Arguments Vis {A X} e k.

Definition env : Type := forall X : Type, effect X -> X.

Fixpoint run {A : Type} (h : env) (p : prog A) : list call * A :=
  match p with
  | Ret a => ([], a)
  | Vis e k =>
      let r := run h (k (h _ e)) in
      (Call e :: r.1, r.2)
  end.

(** [openpgp.PrivateKeyType]. *)
Definition PrivateKeyType : string := "PGP PRIVATE KEY BLOCK".

(** [decodePrivateKey]; the receiver is only read.  On a failed open [in]
    is [nil], and [Close] on it makes no call. *)
Definition decodePrivateKey (g : GorjunServer)
  : prog (option packet.PrivateKey * option error) :=
  Vis (Open (GPGDirectory g +:+ "/secring.gpg")) (fun in_ =>
  match in_ with
  | Err err => Ret (None, Some err)
  | Ok in_ =>
  Vis (ArmorDecode in_) (fun block =>
  match block with
  | Err err =>
      Ret (None, Some (errorString
                         ("Failed to decode GPG Armor: " +:+ Error err)))
  | Ok block =>
  if negb (String.eqb (armor.Type_ block) PrivateKeyType) then
    Ret (None, Some (errorString "Invalid private key file"))
  else
  Vis (Next (armor.Body block)) (fun pkt =>
  match pkt with
  | Err err => Ret (None, Some (errorString "Error reading private key"))
  | Ok pkt =>
  match pkt with
  | PrivateKeyPacket key => Ret (Some key, None)
  | OtherPacket _ =>
      Ret (None, Some (errorString "Error parsing private key"))
  end end) end) end).

(** The files a trace closes. *)
Definition closed (t : list call) : list File :=
  t ≫= λ c, match c with
            | Call (FileClose f) => [f]
            | Call _ => []
            end.

(** A disk with one file, [name], of which [armor.Decode] makes [block]
    and whose first packet is [pkt]. *)
Definition one_file (name : string) (block : result armor.Block)
    (pkt : result Packet) : env :=
  fun X e =>
    match e in effect X return X with
    | Open n =>
        if String.eqb n name then Ok 3%nat
        else Err (PathError "open" n ENOENT)
    | FileClose _ => tt
    | ArmorDecode _ => block
    | Next _ => pkt
    end.
End decode.

(** ** Notions of the further properties *)

(** The calls of [SignToken]: the file system and [openpgp]. *)
Definition is_key_call (c : call) : bool :=
  match c with
  | Call (Stat _) | Call (Open _) | Call (FileClose _)
  | Call (ReadKeyRing _) | Call (Decrypt _ _)
  | Call (ArmoredDetachSign _ _) => true
  | Call _ => false
  end.

(** [all_calls P p]: whatever the environment answers, every call [p]
    makes satisfies [P]. *)
Fixpoint all_calls {A : Type} (P : call -> Prop) (p : prog A) : Prop :=
  match p with
  | Vis e k => P (Call e) ∧ ∀ x, all_calls P (k x)
  | _ => True
  end.

(** The files a call opens, and the files a trace opens, in order. *)
Definition opens (h : env) (c : call) : list File :=
  match c with
  | Call (Open name) =>
      match h _ (Open name) with
      | Ok f => [f]
      | Err _ => []
      end
  | Call _ => []
  end.

Definition opened (h : env) (t : list call) : list File := t ≫= opens h.

(** The files a call closes, and the files a trace closes, in order. *)
Definition closes (c : call) : list File :=
  match c with
  | Call (FileClose f) => [f]
  | Call _ => []
  end.

Definition closed (t : list call) : list File := t ≫= closes.

(** The response bodies a call receives: the body of the response to a
    request that succeeds. *)
Definition receives (h : env) (c : call) : list nat :=
  match c with
  | Call (HttpGet url) =>
      match h _ (HttpGet url) with
      | Ok resp => [http.Body resp]
      | Err _ => []
      end
  | Call (HttpPost url contentType body) =>
      match h _ (HttpPost url contentType body) with
      | Ok resp => [http.Body resp]
      | Err _ => []
      end
  | Call (ClientDo req) =>
      match h _ (ClientDo req) with
      | Ok resp => [http.Body resp]
      | Err _ => []
      end
  | Call _ => []
  end.

Definition received (h : env) (t : list call) : list nat := t ≫= receives h.

(** The response bodies a trace closes. *)
Definition closes_body (c : call) : list nat :=
  match c with
  | Call (BodyClose body) => [body]
  | Call _ => []
  end.

Definition closed_bodies (t : list call) : list nat := t ≫= closes_body.

(** A world whose disk is [protected_directory]'s and whose server issues
    the challenge [code] and, to the token exchange, answers [answer]. *)
Definition live (code answer : string) : world :=
  {| HOME := "/home/user";
     disk := disk protected_directory;
     GET := fun _ => Ok (ok_response 0);
     POST := fun _ _ => Ok (ok_response 1);
     DO := fun _ => Ok (ok_response 2);
     bodies := [Ok code; Ok answer; Ok ""];
     decode := fun _ => Ok [] |}.

(** A challenge of 32 bytes. *)
Definition code32 : string := "0123456789abcdef0123456789abcdef".

(** A key directory whose private ring holds the user's entity without a
    private key. *)
Definition keyless_directory : world :=
  key_directory [entity_for "email@example.com" None]
    [entity_for "email@example.com" None].

(** * Properties *)

(** ** Running a method *)

Section run_facts.
Context {A B : Type} (h : env).

(** Running [p] and then [f]: the calls of [p], then those of [f]; a panic
    in [p] ends the run. *)
Lemma run_bind (p : prog A) (f : A -> prog B) :
  run h (bind p f) =
    match (run h p).2 with
    | Returned a => ((run h p).1 ++ (run h (f a)).1, (run h (f a)).2)
    | Panicked msg => ((run h p).1, Panicked msg)
    end.
Proof.
  induction p as [a | msg | X e k IH]; simpl.
  - by destruct (run h (f a)).
  - done.
  - rewrite IH. by destruct (run h (k (h X e))).2.
Qed.

(** A deferred [Close] does not change how the body ends. *)
Lemma run_defer_Close (f : option File) (body : prog A) :
  (run h (defer (Close f) body)).2 = (run h body).2.
Proof.
  induction body as [a | msg | X e k IH]; simpl.
  - by destruct f.
  - by destruct f.
  - apply IH.
Qed.

(** One call, then the rest. *)
Lemma run_trigger {X : Type} (e : effect X) (k : X -> prog A) :
  run h (trigger e ≫= k) = (Call e :: (run h (k (h X e))).1,
                            (run h (k (h X e))).2).
Proof. done. Qed.
End run_facts.

(** ** Download *)

(** C9: for every input, [DownloadFile] and [DownloadFileByID] return [nil]
    at once: they make no call (the trace is empty, in every environment)
    and hand back the receiver as it was. *)
Theorem Download_is_a_noop :
  ∀ (h : env) (g : GorjunServer) (filename ID outputDirectory : string),
    run h (DownloadFile g filename outputDirectory) = ([], Returned (g, None))
    ∧ run h (DownloadFileByID g ID outputDirectory) = ([], Returned (g, None)).
Proof. intros. split; reflexivity. Qed.

(** ** The token exchange *)

(** The whole run of [GetActiveToken], by the answers of the environment. *)
Lemma run_GetActiveToken (h : env) (g : GorjunServer) (signed : string) :
  let post := HttpPost (token_url g) "application/x-www-form-urlencoded"
                (token_exchange_form g (SignedEnvelope (TokenCode g) signed)) in
  run h (GetActiveToken g signed) =
    match h _ post with
    | Err err =>
        ([Call post],
         Returned (g, Some (errorString
                              ("Failed to retrieve active token: "
                                 +:+ Error err))))
    | Ok resp =>
        ([Call post; Call (ReadAll (http.Body resp));
          Call (BodyClose (http.Body resp))],
         match h _ (ReadAll (http.Body resp)) with
         | Err err =>
             Returned (g, Some (errorString
                                  ("Failed to read body from " +:+ Hostname g
                                     +:+ ": " +:+ Error err)))
         | Ok data =>
             if (String.length data =? 64)%nat
             then Returned (set_Token data g, None)
             else Returned (set_Token "" g,
                            Some (errorString
                                    ("Failed to retrieve active token: "
                                       +:+ data)))
         end)
    end.
Proof.
  intros post. unfold GetActiveToken. rewrite run_trigger.
  change (h _ (HttpPost _ _ _)) with (h _ post).
  destruct (h _ post) as [resp | err]; [| done].
  rewrite run_trigger.
  destruct (h _ (ReadAll (http.Body resp))) as [data | err]; simpl; [| done].
  by destruct (String.length data =? 64)%nat.
Qed.

(** The first call of [RemoveFileByID] builds the DELETE request whose
    address carries the id and the token of the receiver. *)
Lemma RemoveFileByID_request (h : env) (g : GorjunServer) (ID : string) :
  ∃ rest,
    (run h (RemoveFileByID g ID)).1
    = Call (NewRequest "DELETE" (delete_url g ID (Token g)) None) :: rest.
Proof. unfold RemoveFileByID. rewrite run_trigger. by eexists. Qed.

(** Whatever [UploadFile] writes into a form field is the token of the
    receiver. *)
Lemma UploadFile_writes_Token (h : env) (g : GorjunServer) (filename : string) :
  Forall (λ c, ∀ p, form_write c = Some p → p = Token g)
    (run h (UploadFile g filename)).1.
Proof.
  unfold UploadFile. cbn.
  destruct (IsNotExist (h _ (Stat filename))); cbn.
  { repeat constructor; cbn; congruence. }
  destruct (h _ (Open filename)) as [f | err]; cbn.
  2: { repeat constructor; cbn; congruence. }
  destruct (h _ (CreateFormFile (h _ NewWriter) "file"
                   (filepath.Base filename))) as [fw | err]; cbn.
  2: { repeat constructor; cbn; congruence. }
  destruct (h _ (Copy fw f)) as [n | err]; cbn.
  2: { repeat constructor; cbn; congruence. }
  destruct (h _ (CreateFormField (h _ NewWriter) "token")) as [fw' | err]; cbn.
  2: { repeat constructor; cbn; congruence. }
  destruct (h _ (PartWrite fw' (Token g))) as [n' | err]; cbn.
  2: { repeat constructor; cbn; congruence. }
  destruct (h _ (NewRequest "POST" _ _)) as [req | err]; cbn.
  2: { repeat constructor; cbn; congruence. }
  destruct (h _ (ClientDo _)) as [res | err]; cbn.
  2: { repeat constructor; cbn; congruence. }
  destruct (negb _); cbn.
  { repeat constructor; cbn; congruence. }
  destruct (h _ (ReadAll _)) as [response | err]; cbn;
    repeat constructor; cbn; congruence.
Qed.

(** C3, as amended: for every body [data] returned by the token-exchange
    POST, if its length is exactly 64 then [GetActiveToken] succeeds and
    stores that exact string in [Token], which is what [RemoveFileByID]
    puts into the address of its request and what [UploadFile] writes into
    its form field; if its length is not 64 then [GetActiveToken] returns
    an error whose message is the fixed prefix
    ["Failed to retrieve active token: "] followed by the raw body,
    verbatim. *)
Theorem GetActiveToken_by_length :
  ∀ (h : env) (g : GorjunServer) (signed data : string),
    token_exchange_body h g (SignedEnvelope (TokenCode g) signed) = Some data →
    (String.length data = 64%nat →
       (run h (GetActiveToken g signed)).2 = Returned (set_Token data g, None)
       ∧ Token (set_Token data g) = data
       ∧ (∀ ID, ∃ rest,
            (run h (RemoveFileByID (set_Token data g) ID)).1
            = Call (NewRequest "DELETE" (delete_url g ID data) None) :: rest)
       ∧ (∀ filename,
            Forall (λ c, ∀ p, form_write c = Some p → p = data)
              (run h (UploadFile (set_Token data g) filename)).1))
    ∧ (String.length data ≠ 64%nat →
         ∃ err,
           (run h (GetActiveToken g signed)).2
           = Returned (set_Token "" g, Some err)
           ∧ Error err = "Failed to retrieve active token: " +:+ data).
Proof.
  intros h g signed data Hbody.
  pose proof (run_GetActiveToken h g signed) as Hrun. cbv zeta in Hrun.
  unfold token_exchange_body, token_url in *.
  destruct (h _ (HttpPost _ _ _)) as [resp | err]; [| discriminate Hbody].
  destruct (h _ (ReadAll _)) as [data' | err]; [| discriminate Hbody].
  injection Hbody as ->. rewrite Hrun. cbn [snd]. split.
  - intros Hlen. rewrite Hlen. cbn [Nat.eqb].
    split; [reflexivity |]. split; [reflexivity |]. split.
    + intros ID. apply (RemoveFileByID_request h (set_Token data g) ID).
    + intros filename.
      apply (UploadFile_writes_Token h (set_Token data g) filename).
  - intros Hlen. apply Nat.eqb_neq in Hlen. rewrite Hlen.
    eexists. split; reflexivity.
Qed.

(** The amended C3 at a token of 64 bytes and at the rejected body
    ["denied"]. *)
Lemma GetActiveToken_by_length_witness :
  (run (world_env (answering token64 (Ok [])))
     (GetActiveToken user_session "SIG")).2
  = Returned (set_Token token64 user_session, None)
  ∧ ∃ err,
      (run (world_env (answering "denied" (Ok [])))
         (GetActiveToken user_session "SIG")).2
      = Returned (set_Token "" user_session, Some err)
      ∧ Error err = "Failed to retrieve active token: " +:+ "denied".
Proof.
  split.
  - apply (GetActiveToken_by_length (world_env (answering token64 (Ok [])))
             user_session "SIG" token64).
    + vm_compute. reflexivity.
    + vm_compute. reflexivity.
  - apply (GetActiveToken_by_length (world_env (answering "denied" (Ok [])))
             user_session "SIG" "denied").
    + vm_compute. reflexivity.
    + vm_compute. discriminate.
Defined.

(** C3 as stated fails: the server answers ["denied"], whose length is not
    64, and the message of the error [GetActiveToken] returns is not that
    body: it is ["Failed to retrieve active token: denied"]. *)
Lemma GetActiveToken_error_is_not_the_body :
  token_exchange_body (world_env (answering "denied" (Ok []))) user_session
    (SignedEnvelope (TokenCode user_session) "SIG") = Some "denied"
  ∧ String.length "denied" ≠ 64%nat
  ∧ ∃ err,
      (run (world_env (answering "denied" (Ok [])))
         (GetActiveToken user_session "SIG")).2
      = Returned (set_Token "" user_session, Some err)
      ∧ Error err = "Failed to retrieve active token: denied"
      ∧ Error err ≠ "denied".
Proof.
  split_and!; [by vm_compute | by vm_compute |].
  eexists. split_and!; [by vm_compute | by vm_compute | by vm_compute].
Qed.

(** C10: for every body returned by the token-exchange POST whose length is
    not 64, [GetActiveToken] returns an error and leaves the receiver with
    an empty [Token] (and every other field as it was): the rejected body
    is not kept. *)
Theorem GetActiveToken_rejected_clears_Token :
  ∀ (h : env) (g : GorjunServer) (signed data : string),
    token_exchange_body h g (SignedEnvelope (TokenCode g) signed) = Some data →
    String.length data ≠ 64%nat →
    ∃ g' err,
      (run h (GetActiveToken g signed)).2 = Returned (g', Some err)
      ∧ Token g' = ""
      ∧ g' = set_Token "" g.
Proof.
  intros h g signed data Hbody Hlen.
  pose proof (run_GetActiveToken h g signed) as Hrun. cbv zeta in Hrun.
  unfold token_exchange_body, token_url in *.
  destruct (h _ (HttpPost _ _ _)) as [resp | err]; [| discriminate Hbody].
  destruct (h _ (ReadAll _)) as [data' | err]; [| discriminate Hbody].
  injection Hbody as ->. rewrite Hrun. cbn [snd].
  apply Nat.eqb_neq in Hlen. rewrite Hlen.
  eexists _, _. split; [reflexivity |]. split; reflexivity.
Qed.

(** C10 at a body of 63 bytes, one short of a token. *)
Lemma GetActiveToken_rejected_clears_Token_witness :
  ∃ g' err,
    (run (world_env
            (answering
               "0123456789abcdef0123456789abcdef0123456789abcdef0123456789abcde"
               (Ok [])))
       (GetActiveToken user_session "SIG")).2
    = Returned (g', Some err)
    ∧ Token g' = ""
    ∧ g' = set_Token "" user_session.
Proof.
  apply (GetActiveToken_rejected_clears_Token _ user_session "SIG"
           "0123456789abcdef0123456789abcdef0123456789abcdef0123456789abcde").
  - vm_compute. reflexivity.
  - vm_compute. discriminate.
Defined.

(** ** The challenge request *)

(** C5, as amended: a transport error of the challenge request, or an error
    while its body is read, makes [GetAuthTokenCode] fail with an error and
    leaves the receiver as it was; every body that is read, the empty one
    included, is stored as it is in [TokenCode], and the method returns
    [nil]. *)
Theorem GetAuthTokenCode_outcome :
  ∀ (h : env) (g : GorjunServer),
    (∀ err,
       h _ (HttpGet (challenge_url g)) = Err err →
       (run h (GetAuthTokenCode g)).2
       = Returned (g, Some (errorString
                              ("Failed to retrieve unsigned token: "
                                 +:+ Error err))))
    ∧ (∀ resp err,
         h _ (HttpGet (challenge_url g)) = Ok resp →
         h _ (ReadAll (http.Body resp)) = Err err →
         (run h (GetAuthTokenCode g)).2
         = Returned (g, Some (errorString
                                ("Failed to read body from " +:+ Hostname g
                                   +:+ ": " +:+ Error err))))
    ∧ (∀ data,
         challenge_body h g = Some data →
         (run h (GetAuthTokenCode g)).2
         = Returned (set_TokenCode data g, None)).
Proof.
  intros h g. unfold challenge_body, challenge_url, GetAuthTokenCode.
  rewrite run_trigger.
  destruct (h _ (HttpGet _)) as [resp | err0].
  - split; [discriminate |]. rewrite run_trigger. split.
    + intros resp' err Hresp Hread. injection Hresp as <-.
      by rewrite Hread.
    + intros data Hdata.
      destruct (h _ (ReadAll _)) as [data' | err]; [| discriminate Hdata].
      by injection Hdata as ->.
  - split; [| split; discriminate].
    intros err Herr. by injection Herr as ->.
Qed.

(** The amended C5 in a world without network, and in one whose server
    answers with a challenge of 32 bytes. *)
Lemma GetAuthTokenCode_outcome_witness :
  (run (world_env offline) (GetAuthTokenCode user_session)).2
  = Returned (user_session,
              Some (errorString
                      ("Failed to retrieve unsigned token: "
                         +:+ "dial tcp: no route to host")))
  ∧ (run (world_env (answering "0123456789abcdef0123456789abcdef" (Ok [])))
       (GetAuthTokenCode new_GorjunServer)).2
    = Returned (set_TokenCode "0123456789abcdef0123456789abcdef"
                  new_GorjunServer, None).
Proof.
  split.
  - apply (proj1 (GetAuthTokenCode_outcome (world_env offline) user_session)
             (errorString "dial tcp: no route to host")).
    vm_compute. reflexivity.
  - apply (GetAuthTokenCode_outcome
             (world_env (answering "0123456789abcdef0123456789abcdef" (Ok [])))
             new_GorjunServer).
    vm_compute. reflexivity.
Defined.

(** C5 as stated fails: the server answers the challenge request with an
    empty body, and [GetAuthTokenCode] returns [nil] with the empty string
    stored as the challenge. *)
Lemma GetAuthTokenCode_accepts_empty_body :
  challenge_body (world_env (answering "" (Ok []))) user_session = Some ""
  ∧ (run (world_env (answering "" (Ok []))) (GetAuthTokenCode user_session)).2
    = Returned (set_TokenCode "" user_session, None)
  ∧ TokenCode (set_TokenCode "" user_session) = "".
Proof. split_and!; by vm_compute. Qed.

(** ** The signed envelope *)

(** The form [GetActiveToken] posts, written out. *)
Lemma token_exchange_form_eq (g : GorjunServer) (message : string) :
  token_exchange_form g message
  = "message=" +:+ url.QueryEscape message
    +:+ "&user=" +:+ url.QueryEscape (Username g).
Proof. vm_compute. reflexivity. Qed.

(** Unescaping an escaped string gives the string back. *)
Lemma QueryUnescape_QueryEscape (s : string) :
  url.QueryUnescape (url.QueryEscape s) = Some s.
Proof.
  induction s as [| c s IH]; [reflexivity |].
  destruct c as [[] [] [] [] [] [] [] []];
    (cbn [url.QueryEscape];
     match goal with
     | |- context [url.shouldEscape ?c] =>
         let b := eval vm_compute in (url.shouldEscape c) in
         change (url.shouldEscape c) with b
     end;
     cbn [Ascii.eqb Bool.eqb andb];
     repeat match goal with
       | |- context [url.upperhex ?n] =>
           let b := eval vm_compute in (url.upperhex n) in
           change (url.upperhex n) with b
       end;
     cbn [url.QueryUnescape];
     repeat match goal with
       | |- context [url.unhex ?n] =>
           let b := eval vm_compute in (url.unhex n) in
           change (url.unhex n) with b
       end;
     cbn [mbind option_bind];
     rewrite IH; reflexivity).
Qed.

(** C6: for every challenge code (the [TokenCode] of the receiver) and
    every signature string, the first call of [GetActiveToken] is the POST
    to the token address, form-encoded, whose field [message] is the
    escaped SignedEnvelope: header line, hash line, blank line, the
    challenge code, a newline, the signature and a trailing newline, in
    that order; the field [user] is the escaped user name.  The escaped
    field reads back as that envelope, byte for byte. *)
Theorem GetActiveToken_submits_SignedEnvelope :
  ∀ (h : env) (g : GorjunServer) (signed : string),
    (∃ rest,
       (run h (GetActiveToken g signed)).1
       = Call (HttpPost (token_url g) "application/x-www-form-urlencoded"
                 ("message="
                    +:+ url.QueryEscape (SignedEnvelope (TokenCode g) signed)
                    +:+ "&user=" +:+ url.QueryEscape (Username g)))
           :: rest)
    ∧ url.QueryUnescape
        (url.QueryEscape (SignedEnvelope (TokenCode g) signed))
      = Some (("-----BEGIN PGP SIGNED MESSAGE-----" +:+ LF)
              +:+ ("Hash: SHA256" +:+ LF)
              +:+ LF
              +:+ TokenCode g
              +:+ LF
              +:+ signed
              +:+ LF).
Proof.
  intros h g signed. split; [| apply QueryUnescape_QueryEscape].
  pose proof (run_GetActiveToken h g signed) as Hrun. cbv zeta in Hrun.
  rewrite Hrun.
  destruct (h _ (HttpPost _ _ _)); cbn [fst];
    rewrite token_exchange_form_eq; eexists; reflexivity.
Qed.

(** ** Removal *)

(** The whole run of [RemoveFileByID], by the answers of the environment:
    one request is built and, when that succeeds, sent. *)
Lemma run_RemoveFileByID (h : env) (g : GorjunServer) (ID : string) :
  let new := NewRequest "DELETE" (delete_url g ID (Token g)) None in
  run h (RemoveFileByID g ID) =
    match h _ new with
    | Err err =>
        ([Call new],
         Returned (g, Some (errorString
                              ("Failed to remove file [" +:+ ID +:+ "]: "
                                 +:+ Error err))))
    | Ok req =>
        ([Call new; Call (ClientDo req)],
         match h _ (ClientDo req) with
         | Err err =>
             Returned (g, Some (errorString
                                  ("Failed to remove file: " +:+ Error err)))
         | Ok res =>
             if (http.StatusCode res =? http.StatusOK)%Z
             then Returned (g, None)
             else Returned (g, Some (errorString
                                       ("Can't remove file - HTTP request returned "
                                          +:+ http.Status res +:+ " code")))
         end)
    end.
Proof.
  intros new. unfold RemoveFileByID. rewrite run_trigger.
  change (h _ (NewRequest _ _ _)) with (h _ new).
  destruct (h _ new) as [req | err]; [| reflexivity].
  rewrite run_trigger.
  destruct (h _ (ClientDo req)) as [res | err]; [| reflexivity].
  by destruct (http.StatusCode res =? http.StatusOK)%Z.
Qed.

(** [RemoveFile] is the lookup followed by what its result selects. *)
Lemma run_RemoveFile (h : env) (g : GorjunServer) (filename : string) :
  run h (RemoveFile g filename) =
    match (run h (GetFileByName g filename)).2 with
    | Returned (g', _, Some err) =>
        ((run h (GetFileByName g filename)).1,
         Returned (g', Some (errorString
                               ("Failed to get file: " +:+ Error err))))
    | Returned (g', [], None) =>
        ((run h (GetFileByName g filename)).1, Panicked index_out_of_range)
    | Returned (g', file0 :: _, None) =>
        ((run h (GetFileByName g filename)).1
           ++ (run h (RemoveFileByID g' (Id file0))).1,
         (run h (RemoveFileByID g' (Id file0))).2)
    | Panicked msg => ((run h (GetFileByName g filename)).1, Panicked msg)
    end.
Proof.
  unfold RemoveFile.
  change (mbind ?f ?p) with (bind p f). rewrite run_bind.
  destruct (run h (GetFileByName g filename)) as [calls o]. cbn [fst snd].
  destruct o as [[[g' file] [err |]] | msg]; [| | done].
  - destruct file; cbn; by rewrite app_nil_r.
  - destruct file as [| file0 rest]; cbn; [by rewrite app_nil_r | done].
Qed.

(** C8: for every file name whose lookup returns a non-empty sequence of
    records, [RemoveFile] does, after the lookup, exactly what
    [RemoveFileByID] does on the id of the first record, whatever the rest
    of the sequence is: it builds the one DELETE request for that id and,
    if the request could be built, sends it. *)
Theorem RemoveFile_removes_first :
  ∀ (h : env) (g : GorjunServer) (filename : string)
    (file0 : GorjunFile) (rest : list GorjunFile),
    (run h (GetFileByName g filename)).2
    = Returned (g, file0 :: rest, None) →
    run h (RemoveFile g filename)
    = ((run h (GetFileByName g filename)).1
         ++ (run h (RemoveFileByID g (Id file0))).1,
       (run h (RemoveFileByID g (Id file0))).2)
    ∧ ((run h (RemoveFileByID g (Id file0))).1
       = Call (NewRequest "DELETE" (delete_url g (Id file0) (Token g)) None)
           :: match h _ (NewRequest "DELETE"
                           (delete_url g (Id file0) (Token g)) None)
              with
              | Ok req => [Call (ClientDo req)]
              | Err _ => []
              end).
Proof.
  intros h g filename file0 rest Hlookup. split.
  - by rewrite run_RemoveFile, Hlookup.
  - pose proof (run_RemoveFileByID h g (Id file0)) as Hrun.
    cbv zeta in Hrun. rewrite Hrun.
    by destruct (h _ (NewRequest _ _ _)).
Qed.

(** C8 in a world whose server finds two records of the same name: the
    request that is built deletes ["id-1"], the first one. *)
Lemma RemoveFile_removes_first_witness :
  run (world_env (answering "[...]" (Ok two_files)))
    (RemoveFile user_session "libgorjun-test")
  = ((run (world_env (answering "[...]" (Ok two_files)))
        (GetFileByName user_session "libgorjun-test")).1
       ++ (run (world_env (answering "[...]" (Ok two_files)))
             (RemoveFileByID user_session "id-1")).1,
     (run (world_env (answering "[...]" (Ok two_files)))
        (RemoveFileByID user_session "id-1")).2).
Proof.
  apply (RemoveFile_removes_first
           (world_env (answering "[...]" (Ok two_files))) user_session
           "libgorjun-test"
           {| Id := "id-1"; Size := 20; Name := "libgorjun-test";
              Owner := ["user"]; Hash := {| MD5 := "md5-1"; SHA := "sha-1" |} |}
           [ {| Id := "id-2"; Size := 20; Name := "libgorjun-test";
                Owner := ["user"];
                Hash := {| MD5 := "md5-2"; SHA := "sha-2" |} |} ]).
  vm_compute. reflexivity.
Defined.

(** C2, what the code does: for every file name whose lookup succeeds with
    zero records, [RemoveFile] indexes the empty sequence and panics; it
    returns no error and makes no call after the lookup. *)
Theorem RemoveFile_panics_on_no_match :
  ∀ (h : env) (g : GorjunServer) (filename : string),
    (run h (GetFileByName g filename)).2 = Returned (g, [], None) →
    run h (RemoveFile g filename)
    = ((run h (GetFileByName g filename)).1, Panicked index_out_of_range).
Proof.
  intros h g filename Hlookup. by rewrite run_RemoveFile, Hlookup.
Qed.

(** C2 at a server that answers the lookup with the empty JSON array. *)
Lemma RemoveFile_panics_on_no_match_witness :
  run (world_env (answering "[]" (Ok []))) (RemoveFile user_session "nofile")
  = ([Call (HttpGet "https://cdn.subut.ai:8338/kurjun/rest/raw/info?name=nofile");
      Call (ReadAll 0); Call (BodyClose 0); Call (JsonUnmarshal "[]")],
     Panicked "runtime error: index out of range [0] with length 0").
Proof.
  apply (RemoveFile_panics_on_no_match (world_env (answering "[]" (Ok [])))
           user_session "nofile").
  vm_compute. reflexivity.
Defined.

(** ** Key lookup *)

(** The inner loop finds an identity with the email, wherever it is. *)
Lemma identities_have_true (idents : list openpgp.Identity) (email : string) :
  identities_have idents email = true
  ↔ ∃ ident, ident ∈ idents ∧ packet.Email (openpgp.UserId ident) = email.
Proof.
  induction idents as [| ident rest IH]; simpl.
  - split; [discriminate | intros (? & []%elem_of_nil & _)].
  - destruct (String.eqb_spec (packet.Email (openpgp.UserId ident)) email)
      as [Heq | Hne].
    + split; [| done]. intros _. exists ident. split; [left | done].
    + rewrite IH. split.
      * intros (i & Hin & Hi). exists i. split; [by right | done].
      * intros (i & [-> | Hin]%elem_of_cons & Hi); [done | by exists i].
Qed.

(** The order in which the [range] delivers the identities of the Go map
    does not matter. *)
Lemma identities_have_Permutation (l1 l2 : list openpgp.Identity)
    (email : string) :
  l1 ≡ₚ l2 → identities_have l1 email = identities_have l2 email.
Proof.
  intros Hperm. apply eq_true_iff_eq.
  rewrite !identities_have_true. by setoid_rewrite Hperm.
Qed.

(** The test [getKeyByEmail] makes on an entity is [entity_matches]. *)
Lemma identities_have_matches (entity : openpgp.Entity) (email : string) :
  identities_have (identity_values entity) email = true
  ↔ entity_matches entity email.
Proof.
  rewrite identities_have_true. unfold identity_values, entity_matches. split.
  - intros (ident & Hin & Hemail).
    apply list_elem_of_fmap in Hin as ([name ident'] & -> & Hin).
    apply elem_of_map_to_list in Hin. by exists name, ident'.
  - intros (name & ident & Hlookup & Hemail). exists ident. split; [| done].
    apply list_elem_of_fmap. exists (name, ident). split; [done |].
    by apply elem_of_map_to_list.
Qed.

Lemma identities_have_no_match (entity : openpgp.Entity) (email : string) :
  identities_have (identity_values entity) email = false
  ↔ ¬ entity_matches entity email.
Proof.
  rewrite <- identities_have_matches.
  by destruct (identities_have (identity_values entity) email).
Qed.

(** [getKeyByEmail] returns the first entity of the ring that matches. *)
Lemma getKeyByEmail_Some (g : GorjunServer) (keyring : openpgp.EntityList)
    (email : string) (entity : openpgp.Entity) :
  getKeyByEmail g keyring email = Some entity
  ↔ ∃ before after,
      keyring = before ++ entity :: after
      ∧ Forall (λ e, ¬ entity_matches e email) before
      ∧ entity_matches entity email.
Proof.
  induction keyring as [| e rest IH]; simpl.
  - split; [discriminate |]. intros (before & after & Heq & _).
    by destruct before.
  - destruct (identities_have (identity_values e) email) eqn:Hhave.
    + apply identities_have_matches in Hhave. split.
      * intros [= ->]. by exists [], rest.
      * intros (before & after & Heq & Hnone & Hmatch).
        destruct before as [| e' before]; simplify_eq/=; [done |].
        by apply Forall_cons in Hnone as [Hno _].
    + apply identities_have_no_match in Hhave. rewrite IH. split.
      * intros (before & after & -> & Hnone & Hmatch).
        exists (e :: before), after. by rewrite Forall_cons.
      * intros (before & after & Heq & Hnone & Hmatch).
        destruct before as [| e' before]; simplify_eq/=; [done |].
        apply Forall_cons in Hnone as [_ Hnone]. by exists before, after.
Qed.

(** [getKeyByEmail] returns [nil] exactly when no entity matches. *)
Lemma getKeyByEmail_None (g : GorjunServer) (keyring : openpgp.EntityList)
    (email : string) :
  getKeyByEmail g keyring email = None
  ↔ Forall (λ e, ¬ entity_matches e email) keyring.
Proof.
  induction keyring as [| e rest IH]; simpl.
  - split; [constructor | done].
  - rewrite Forall_cons, <- IH, <- identities_have_no_match.
    destruct (identities_have (identity_values e) email);
      intuition congruence.
Qed.

(** ** The stages of [SignToken] *)

Section SignToken_stages.
Variable h : env.
Variables (g : GorjunServer) (token : string).

(** How [sign_with] ends: with the key as [Decrypt] leaves it, whatever
    [Decrypt] returns, signing decides. *)
Lemma sign_with_outcome (privateKey : openpgp.Entity) :
  (run h (sign_with g token privateKey)).2 =
    let sign signer :=
      match h _ (ArmoredDetachSign signer token) with
      | Err err =>
          Returned (g, "", Some (errorString
                                   ("Failed to sign token: " +:+ Error err)))
      | Ok outBuf => Returned (g, outBuf, None)
      end in
    if String.eqb (Passphrase g) "" then sign privateKey
    else
      match openpgp.PrivateKey privateKey with
      | None => Panicked nil_dereference
      | Some pk =>
          sign (set_PrivateKey (Some (h _ (Decrypt pk (Passphrase g))).1)
                  privateKey)
      end.
Proof.
  unfold sign_with. destruct (String.eqb (Passphrase g) ""); cbn.
  - by destruct (h _ (ArmoredDetachSign privateKey token)).
  - destruct (openpgp.PrivateKey privateKey) as [pk |]; cbn; [| done].
    by destruct (h _ (ArmoredDetachSign _ token)).
Qed.

(** Once the private ring is read, the lookup in it decides. *)
Lemma sign_with_secring_outcome (secring : openpgp.EntityList) :
  private_ring_read h g secring →
  (run h (sign_with_secring g token)).2 =
    match getKeyByEmail g secring (Email g) with
    | None =>
        Returned (g, "", Some (errorString
                                 ("Private key for " +:+ Email g
                                    +:+ " was not found")))
    | Some privateKey => (run h (sign_with g token privateKey)).2
    end.
Proof.
  intros (priFile & Hopen & Hread). unfold sign_with_secring.
  rewrite run_trigger. cbn [snd]. rewrite Hopen, run_defer_Close.
  rewrite run_trigger. cbn [snd]. rewrite Hread.
  by destruct (getKeyByEmail g secring (Email g)).
Qed.

(** Once the public ring is read, the lookup in it decides. *)
Lemma SignToken_outcome (pubring : openpgp.EntityList) :
  public_ring_read h g pubring →
  (run h (SignToken g token)).2 =
    match getKeyByEmail g pubring (Email g) with
    | None =>
        Returned (g, "", Some (errorString
                                 ("Public key for " +:+ Email g
                                    +:+ " was not found")))
    | Some publicKey => (run h (sign_with_secring g token)).2
    end.
Proof.
  intros (Hdir & Hlocated & pukFile & Hopen & Hread). unfold SignToken.
  apply String.eqb_neq in Hdir. rewrite Hdir.
  rewrite run_trigger. cbn [snd].
  assert (IsNotExist
            (h _ (Stat (if IsNotExist
                             (h _ (Stat (GPGDirectory g +:+ "/pubring.gpg")))
                        then GPGDirectory g +:+ "/pubring.kbx"
                        else GPGDirectory g +:+ "/pubring.gpg")))
          = false) as Hfound.
  { destruct (IsNotExist (h _ (Stat (GPGDirectory g +:+ "/pubring.gpg"))))
      eqn:Hgpg; [destruct Hlocated; congruence | exact Hgpg]. }
  rewrite run_trigger. cbn [snd]. rewrite Hfound.
  rewrite run_trigger. cbn [snd]. rewrite Hopen, run_defer_Close.
  rewrite run_trigger. cbn [snd]. rewrite Hread.
  by destruct (getKeyByEmail g pubring (Email g)).
Qed.
End SignToken_stages.

(** C7: for every keyring and target email, [getKeyByEmail] returns the
    first entity in ring order one of whose identities carries exactly that
    email (every entity before it has none), and returns [nil] exactly when
    no entity of the ring matches; and [SignToken] turns a missing match in
    the public ring and a missing match in the private ring into two
    errors with different messages. *)
Theorem getKeyByEmail_first_match :
  ∀ (g : GorjunServer) (keyring : openpgp.EntityList) (email : string),
    (∀ entity,
       getKeyByEmail g keyring email = Some entity
       ↔ ∃ before after,
           keyring = before ++ entity :: after
           ∧ Forall (λ e, ¬ entity_matches e email) before
           ∧ entity_matches entity email)
    ∧ (getKeyByEmail g keyring email = None
       ↔ Forall (λ e, ¬ entity_matches e email) keyring)
    ∧ (∀ (h : env) (token : string) (pubring : openpgp.EntityList),
         public_ring_read h g pubring →
         getKeyByEmail g pubring (Email g) = None →
         (run h (SignToken g token)).2
         = Returned (g, "", Some (errorString
                                    ("Public key for " +:+ Email g
                                       +:+ " was not found"))))
    ∧ (∀ (h : env) (token : string) (pubring secring : openpgp.EntityList)
         (publicKey : openpgp.Entity),
         public_ring_read h g pubring →
         getKeyByEmail g pubring (Email g) = Some publicKey →
         private_ring_read h g secring →
         getKeyByEmail g secring (Email g) = None →
         (run h (SignToken g token)).2
         = Returned (g, "", Some (errorString
                                    ("Private key for " +:+ Email g
                                       +:+ " was not found"))))
    ∧ errorString ("Public key for " +:+ Email g +:+ " was not found")
      ≠ errorString ("Private key for " +:+ Email g +:+ " was not found").
Proof.
  intros g keyring email. split; [| split; [| split; [| split]]].
  - intros entity. apply getKeyByEmail_Some.
  - apply getKeyByEmail_None.
  - intros h token pubring Hpub Hnone.
    by rewrite (SignToken_outcome h g token pubring Hpub), Hnone.
  - intros h token pubring secring publicKey Hpub Hsome Hsec Hnone.
    rewrite (SignToken_outcome h g token pubring Hpub), Hsome.
    by rewrite (sign_with_secring_outcome h g token secring Hsec), Hnone.
  - discriminate.
Qed.

(** C7 on two key directories: one whose public ring has no entity for the
    user's email, one whose private ring has none. *)
Lemma getKeyByEmail_first_match_witness :
  (run (world_env
          (key_directory [entity_for "other@example.com" None]
             [entity_for "email@example.com" (Some (protected_key "s3cret"))]))
     (SignToken user_session "111")).2
  = Returned (user_session, "",
              Some (errorString
                      "Public key for email@example.com was not found"))
  ∧ (run (world_env
            (key_directory [entity_for "email@example.com" None]
               [entity_for "other@example.com"
                  (Some (protected_key "s3cret"))]))
       (SignToken user_session "111")).2
    = Returned (user_session, "",
                Some (errorString
                        "Private key for email@example.com was not found")).
Proof.
  split.
  - refine (proj1 (proj2 (proj2 (getKeyByEmail_first_match user_session [] "")))
              _ "111" [entity_for "other@example.com" None] _ _).
    + split; [discriminate |]. split; [left; vm_compute; reflexivity |].
      exists 0%nat. split; vm_compute; reflexivity.
    + vm_compute. reflexivity.
  - refine (proj1 (proj2 (proj2 (proj2
              (getKeyByEmail_first_match user_session [] ""))))
              _ "111" [entity_for "email@example.com" None]
              [entity_for "other@example.com" (Some (protected_key "s3cret"))]
              (entity_for "email@example.com" None) _ _ _ _).
    + split; [discriminate |]. split; [left; vm_compute; reflexivity |].
      exists 0%nat. split; vm_compute; reflexivity.
    + vm_compute. reflexivity.
    + exists 1%nat. split; vm_compute; reflexivity.
    + vm_compute. reflexivity.
Defined.

(** ** Public ring discovery *)

(** C1, what the code does: for every key directory that holds
    [pubring.kbx] but no [pubring.gpg], [SignToken] finds the fallback with
    its second [os.Stat] and then opens [pubring.gpg] all the same; the
    open fails, no keyring is read, and the method returns the error of the
    failed open. *)
Theorem SignToken_opens_pubring_gpg_only :
  ∀ (h : env) (g : GorjunServer) (token : string),
    GPGDirectory g ≠ "" →
    file_absent h (GPGDirectory g +:+ "/pubring.gpg") →
    file_present h (GPGDirectory g +:+ "/pubring.kbx") →
    run h (SignToken g token)
    = ([Call (Stat (GPGDirectory g +:+ "/pubring.gpg"));
        Call (Stat (GPGDirectory g +:+ "/pubring.kbx"));
        Call (Open (GPGDirectory g +:+ "/pubring.gpg"))],
       Returned (g, "",
                 Some (errorString
                         ("Failed to open public keyring file: "
                            +:+ Error (PathError "open"
                                         (GPGDirectory g +:+ "/pubring.gpg")
                                         ENOENT))))).
Proof.
  intros h g token Hdir [Hstat Hopen] Hkbx. unfold SignToken.
  apply String.eqb_neq in Hdir. rewrite Hdir.
  rewrite run_trigger, Hstat. cbn [IsNotExist].
  rewrite run_trigger, Hkbx. cbn [IsNotExist].
  rewrite run_trigger, Hopen. reflexivity.
Qed.

(** C1 on a key directory as GnuPG 2.1 lays it out, holding a public key
    for the user's email in [pubring.kbx]. *)
Lemma SignToken_opens_pubring_gpg_only_witness :
  run (world_env
         (key_directory_kbx [entity_for "email@example.com" None]
            [entity_for "email@example.com" (Some (protected_key "s3cret"))]))
    (SignToken user_session "111")
  = ([Call (Stat "/home/user/.gnupg/pubring.gpg");
      Call (Stat "/home/user/.gnupg/pubring.kbx");
      Call (Open "/home/user/.gnupg/pubring.gpg")],
     Returned (user_session, "",
               Some (errorString
                       "Failed to open public keyring file: open /home/user/.gnupg/pubring.gpg: no such file or directory"))).
Proof.
  apply (SignToken_opens_pubring_gpg_only
           (world_env
              (key_directory_kbx [entity_for "email@example.com" None]
                 [entity_for "email@example.com"
                    (Some (protected_key "s3cret"))]))
           user_session "111").
  - discriminate.
  - split; vm_compute; reflexivity.
  - vm_compute. reflexivity.
Defined.

(** ** Passphrase-protected keys *)

(** The toy [openpgp] of [world_env] keeps the contract. *)
Lemma world_env_openpgp_contract (w : world) : openpgp_contract (world_env w).
Proof.
  split; cbn; unfold toy_ArmoredDetachSign, toy_Decrypt.
  - intros signer pk message -> ->. by eexists.
  - intros pk passphrase.
    destruct (packet.Encrypted pk); [| done].
    by destruct (String.eqb passphrase (packet.KeyData pk)).
  - intros pk passphrase.
    destruct (packet.Encrypted pk) eqn:Henc; [| done].
    by destruct (String.eqb passphrase (packet.KeyData pk)).
  - intros signer pk message -> ->. by eexists.
Qed.

(** C4: for every private key that is encrypted, and an [openpgp] that
    keeps its contract: if no passphrase is given, or [Decrypt] fails with
    the passphrase given, [SignToken] fails with the error
    ["Failed to sign token: ..."] and returns no signature; if [Decrypt]
    succeeds with the passphrase given, [SignToken] returns the signature
    made with the decrypted key and no error. *)
Theorem SignToken_encrypted_key :
  ∀ (h : env) (g : GorjunServer) (token : string)
    (publicKey privateKey : openpgp.Entity) (pk : packet.PrivateKey),
    openpgp_contract h →
    ResolvedKeyPair h g publicKey privateKey →
    openpgp.PrivateKey privateKey = Some pk →
    packet.Encrypted pk = true →
    (Passphrase g = "" ∨ (h _ (Decrypt pk (Passphrase g))).2 ≠ None →
       ∃ err,
         (run h (SignToken g token)).2
         = Returned (g, "", Some (errorString
                                    ("Failed to sign token: " +:+ Error err))))
    ∧ (Passphrase g ≠ "" → (h _ (Decrypt pk (Passphrase g))).2 = None →
         ∃ signature,
           (run h (SignToken g token)).2 = Returned (g, signature, None)
           ∧ h _ (ArmoredDetachSign
                    (set_PrivateKey
                       (Some (h _ (Decrypt pk (Passphrase g))).1) privateKey)
                    token)
             = Ok signature).
Proof.
  intros h g token publicKey privateKey pk Hlib
    (pubring & secring & Hpub & Hpublic & Hsec & Hprivate) Hpk Henc.
  rewrite (SignToken_outcome h g token pubring Hpub), Hpublic.
  rewrite (sign_with_secring_outcome h g token secring Hsec), Hprivate.
  rewrite sign_with_outcome, Hpk. cbv zeta. split.
  - intros Hfail.
    destruct (String.eqb_spec (Passphrase g) "") as [Hempty | Hgiven].
    + destruct (sign_refuses_encrypted h Hlib privateKey pk token Hpk Henc)
        as [err ->].
      by exists err.
    + destruct Hfail as [Hempty | Hfail]; [done |].
      rewrite (decrypt_failure_keeps h Hlib pk (Passphrase g) Hfail).
      destruct (sign_refuses_encrypted h Hlib
                  (set_PrivateKey (Some pk) privateKey) pk token
                  eq_refl Henc) as [err ->].
      by exists err.
  - intros Hgiven Hok. apply String.eqb_neq in Hgiven. rewrite Hgiven.
    destruct (sign_accepts_decrypted h Hlib
                (set_PrivateKey (Some (h _ (Decrypt pk (Passphrase g))).1)
                   privateKey)
                (h _ (Decrypt pk (Passphrase g))).1 token eq_refl
                (decrypt_success_clears h Hlib pk (Passphrase g) Hok))
      as [signature Hsign].
    rewrite Hsign. by exists signature.
Qed.

(** The key pair of [protected_directory] resolves for the user's session,
    whatever the passphrase. *)
Lemma protected_directory_resolves (passphrase : string) :
  ResolvedKeyPair (world_env protected_directory)
    (set_Passphrase passphrase user_session)
    (entity_for "email@example.com" None)
    (entity_for "email@example.com" (Some (protected_key "s3cret"))).
Proof.
  exists [entity_for "email@example.com" None],
    [entity_for "email@example.com" (Some (protected_key "s3cret"))].
  split; [| split; [| split]].
  - split; [discriminate |]. split; [left; vm_compute; reflexivity |].
    exists 0%nat. split; vm_compute; reflexivity.
  - vm_compute. reflexivity.
  - exists 1%nat. split; vm_compute; reflexivity.
  - vm_compute. reflexivity.
Qed.

(** C4 on a key protected by ["s3cret"]: signing fails without a
    passphrase and with the passphrase ["wrong"], and succeeds with
    ["s3cret"]. *)
Lemma SignToken_encrypted_key_witness :
  (∃ err,
     (run (world_env protected_directory)
        (SignToken (set_Passphrase "" user_session) "111")).2
     = Returned (set_Passphrase "" user_session, "",
                 Some (errorString ("Failed to sign token: " +:+ Error err))))
  ∧ (∃ err,
       (run (world_env protected_directory)
          (SignToken (set_Passphrase "wrong" user_session) "111")).2
       = Returned (set_Passphrase "wrong" user_session, "",
                   Some (errorString
                           ("Failed to sign token: " +:+ Error err))))
  ∧ (∃ signature,
       (run (world_env protected_directory)
          (SignToken (set_Passphrase "s3cret" user_session) "111")).2
       = Returned (set_Passphrase "s3cret" user_session, signature, None)
       ∧ toy_ArmoredDetachSign
           (entity_for "email@example.com"
              (Some {| packet.Encrypted := false;
                       packet.KeyData := "s3cret" |}))
           "111"
         = Ok signature).
Proof.
  split; [| split].
  - apply (SignToken_encrypted_key (world_env protected_directory)
             (set_Passphrase "" user_session) "111"
             (entity_for "email@example.com" None)
             (entity_for "email@example.com" (Some (protected_key "s3cret")))
             (protected_key "s3cret")
             (world_env_openpgp_contract protected_directory)
             (protected_directory_resolves "") eq_refl eq_refl).
    left. reflexivity.
  - apply (SignToken_encrypted_key (world_env protected_directory)
             (set_Passphrase "wrong" user_session) "111"
             (entity_for "email@example.com" None)
             (entity_for "email@example.com" (Some (protected_key "s3cret")))
             (protected_key "s3cret")
             (world_env_openpgp_contract protected_directory)
             (protected_directory_resolves "wrong") eq_refl eq_refl).
    right. vm_compute. discriminate.
  - apply (SignToken_encrypted_key (world_env protected_directory)
             (set_Passphrase "s3cret" user_session) "111"
             (entity_for "email@example.com" None)
             (entity_for "email@example.com" (Some (protected_key "s3cret")))
             (protected_key "s3cret")
             (world_env_openpgp_contract protected_directory)
             (protected_directory_resolves "s3cret") eq_refl eq_refl).
    + discriminate.
    + vm_compute. reflexivity.
Defined.

(** ** What every run keeps *)

Section always_facts.
Context {A B : Type}.

Lemma always_run (h : env) (P : A -> Prop) (p : prog A) (a : A) :
  always P p → (run h p).2 = Returned a → P a.
Proof.
  induction p as [a' | msg | X e k IH]; simpl.
  - by intros HP [= <-].
  - discriminate.
  - intros Hall. apply IH, Hall.
Qed.

Lemma always_mono (P Q : A -> Prop) (p : prog A) :
  (∀ a, P a → Q a) → always P p → always Q p.
Proof.
  intros HPQ. induction p as [a | msg | X e k IH]; simpl; [auto | done |].
  intros Hall x. apply IH, Hall.
Qed.

Lemma always_bind (Q : B -> Prop) (p : prog A) (f : A -> prog B) :
  always (λ a, always Q (f a)) p → always Q (bind p f).
Proof.
  induction p as [a | msg | X e k IH]; simpl; [done | done |].
  intros Hall x. apply IH, Hall.
Qed.

Lemma always_defer_Close (P : A -> Prop) (f : option File) (body : prog A) :
  always P body → always P (defer (Close f) body).
Proof.
  induction body as [a | msg | X e k IH]; simpl.
  - destruct f; simpl; auto.
  - destruct f; simpl; auto.
  - intros Hall x. apply IH, Hall.
Qed.
End always_facts.

(** [sign_with] hands back the receiver it was given. *)
Lemma sign_with_keeps_receiver (g : GorjunServer) (token : string)
    (privateKey : openpgp.Entity) :
  always (λ r, r.1.1 = g) (sign_with g token privateKey).
Proof.
  unfold sign_with. destruct (negb (String.eqb (Passphrase g) "")); cbn.
  - destruct (openpgp.PrivateKey privateKey); cbn; [| done].
    intros r [outBuf | err]; done.
  - intros [outBuf | err]; done.
Qed.

Lemma sign_with_secring_keeps_receiver (g : GorjunServer) (token : string) :
  always (λ r, r.1.1 = g) (sign_with_secring g token).
Proof.
  unfold sign_with_secring. cbn. intros priFile.
  apply always_defer_Close. destruct priFile as [priFile | err]; cbn; [| done].
  intros [secring | err]; [| done].
  destruct (getKeyByEmail g secring (Email g)); [| done].
  apply sign_with_keeps_receiver.
Qed.

(** [SignToken] assigns no field: whenever it returns, it hands back the
    receiver it was given. *)
Lemma SignToken_keeps_receiver (g : GorjunServer) (token : string) :
  always (λ r, r.1.1 = g) (SignToken g token).
Proof.
  unfold SignToken. destruct (String.eqb (GPGDirectory g) ""); [done |].
  cbn. intros err1 err2. destruct (IsNotExist err2); [done |].
  cbn. intros pukFile. apply always_defer_Close.
  destruct pukFile as [pukFile | err]; cbn; [| done].
  intros [pubring | err]; [| done].
  destruct (getKeyByEmail g pubring (Email g)); [| done].
  apply sign_with_secring_keeps_receiver.
Qed.

Lemma same_identity_trans (g1 g2 g3 : GorjunServer) :
  same_identity g1 g2 → same_identity g2 g3 → same_identity g1 g3.
Proof. unfold same_identity. intuition congruence. Qed.

(** [GetAuthTokenCode] assigns [TokenCode] only. *)
Lemma GetAuthTokenCode_keeps_identity (g : GorjunServer) :
  always (λ r, same_identity g r.1 ∧ Token r.1 = Token g)
    (GetAuthTokenCode g).
Proof.
  unfold GetAuthTokenCode. cbn. intros [resp | err]; cbn; [| done].
  intros [data | err] []; done.
Qed.

(** [GetActiveToken] assigns [Token] only. *)
Lemma GetActiveToken_keeps_identity (g : GorjunServer) (signed : string) :
  always (λ r, same_identity g r.1 ∧ TokenCode r.1 = TokenCode g)
    (GetActiveToken g signed).
Proof.
  unfold GetActiveToken. cbn [mbind prog_bind bind trigger always].
  intros [resp | err]; cbn [mbind prog_bind bind trigger always]; [| done].
  intros [data | err] []; [| done].
  cbn [Token set_Token]. by destruct (negb _).
Qed.

(** The handshake assigns [TokenCode] and [Token] only. *)
Lemma handshake_keeps_identity (g : GorjunServer) :
  always (λ r, same_identity g r.1) (handshake g).
Proof.
  unfold handshake. change (mbind ?f ?p) with (bind p f).
  apply always_bind.
  eapply always_mono; [| apply GetAuthTokenCode_keeps_identity].
  intros [g1 [err |]] [Hid1 _]; cbn [fst]; [exact Hid1 |].
  change (mbind ?f ?p) with (bind p f). apply always_bind.
  eapply always_mono; [| apply SignToken_keeps_receiver].
  intros [[g2 sign] [err |]] Hg2; cbn in Hg2; subst g2; [exact Hid1 |].
  change (mbind ?f ?p) with (bind p f). apply always_bind.
  eapply always_mono; [| apply GetActiveToken_keeps_identity].
  intros [g3 [err |]] [Hid3 _]; cbn [fst] in *;
    exact (same_identity_trans _ _ _ Hid1 Hid3).
Qed.

(** ** Further properties *)

(** X1: whenever [AuthenticateUser] returns, with or without an error, the
    session carries the user name, email and passphrase it was given, the
    host name it had, and as key directory [gpgdir], or [$HOME/.gnupg]
    when [gpgdir] is empty. *)
Theorem AuthenticateUser_identity :
  ∀ (h : env) (g : GorjunServer) (username email passphrase gpgdir : string),
    match (run h (AuthenticateUser g username email passphrase gpgdir)).2 with
    | Returned (g', _) =>
        Username g' = username
        ∧ Email g' = email
        ∧ Passphrase g' = passphrase
        ∧ Hostname g' = Hostname g
        ∧ GPGDirectory g'
          = (if String.eqb gpgdir "" then h _ (Getenv "HOME") +:+ "/.gnupg"
             else gpgdir)
    | Panicked _ => True
    end.
Proof.
  intros h g username email passphrase gpgdir.
  set (g1 := set_GPGDirectory
               (if String.eqb gpgdir "" then h _ (Getenv "HOME") +:+ "/.gnupg"
                else gpgdir)
               (set_Passphrase passphrase
                  (set_Email email (set_Username username g)))).
  assert ((run h (AuthenticateUser g username email passphrase gpgdir)).2
          = (run h (handshake g1)).2) as ->.
  { unfold AuthenticateUser, g1. by destruct (String.eqb gpgdir ""). }
  destruct (run h (handshake g1)).2 as [[g' err] | msg] eqn:Hrun; [| done].
  destruct (always_run h _ _ _ (handshake_keeps_identity g1) Hrun)
    as (Huser & Hemail & Hhost & Hdir & Hpass).
  cbn [fst] in *. by rewrite Huser, Hemail, Hhost, Hdir, Hpass.
Qed.

(** X2: when the challenge request fails, the handshake ends there: the
    error is returned, the session is as it was, and no key is read and
    nothing is signed or posted. *)
Theorem handshake_stops_at_challenge :
  ∀ (h : env) (g : GorjunServer) (err : error),
    h _ (HttpGet (challenge_url g)) = Err err →
    run h (handshake g)
    = ([Call (HttpGet (challenge_url g))],
       Returned (g, Some (errorString
                            ("Failed to retrieve unsigned token: "
                               +:+ Error err)))).
Proof.
  intros h g err Hget. unfold handshake, GetAuthTokenCode, challenge_url in *.
  cbn. by rewrite Hget.
Qed.

(** X2 in a world without network. *)
Lemma handshake_stops_at_challenge_witness :
  run (world_env offline) (handshake user_session)
  = ([Call (HttpGet
              "https://cdn.subut.ai:8338/kurjun/rest/auth/token?user=user")],
     Returned (user_session,
               Some (errorString
                       "Failed to retrieve unsigned token: dial tcp: no route to host"))).
Proof.
  apply (handshake_stops_at_challenge (world_env offline) user_session
           (errorString "dial tcp: no route to host")).
  vm_compute. reflexivity.
Defined.

(** X3: without a key directory [SignToken] fails before any call; with a
    key directory in which neither [pubring.gpg] nor [pubring.kbx] exists
    it fails after the two [os.Stat] calls, without opening a file. *)
Theorem SignToken_keyring_not_found :
  ∀ (h : env) (g : GorjunServer) (token : string),
    (GPGDirectory g = "" →
       run h (SignToken g token)
       = ([], Returned (g, "",
                        Some (errorString "GPG Directory was not specified"))))
    ∧ (GPGDirectory g ≠ "" →
       file_absent h (GPGDirectory g +:+ "/pubring.gpg") →
       file_absent h (GPGDirectory g +:+ "/pubring.kbx") →
       run h (SignToken g token)
       = ([Call (Stat (GPGDirectory g +:+ "/pubring.gpg"));
           Call (Stat (GPGDirectory g +:+ "/pubring.kbx"))],
          Returned (g, "",
                    Some (errorString
                            "Can't find pubring.gpg nor pubring.kbx")))).
Proof.
  intros h g token. unfold SignToken. split.
  - by intros ->.
  - intros Hdir [Hgpg _] [Hkbx _]. apply String.eqb_neq in Hdir.
    rewrite Hdir, run_trigger, Hgpg. cbn [IsNotExist].
    by rewrite run_trigger, Hkbx.
Qed.

(** X3 on a session without key directory, and on an empty disk. *)
Lemma SignToken_keyring_not_found_witness :
  run (world_env offline) (SignToken new_GorjunServer "111")
  = ([], Returned (new_GorjunServer, "",
                   Some (errorString "GPG Directory was not specified")))
  ∧ run (world_env offline) (SignToken user_session "111")
    = ([Call (Stat "/home/user/.gnupg/pubring.gpg");
        Call (Stat "/home/user/.gnupg/pubring.kbx")],
       Returned (user_session, "",
                 Some (errorString "Can't find pubring.gpg nor pubring.kbx"))).
Proof.
  split.
  - by apply (SignToken_keyring_not_found (world_env offline)
                new_GorjunServer "111").
  - apply (SignToken_keyring_not_found (world_env offline) user_session "111").
    + discriminate.
    + split; vm_compute; reflexivity.
    + split; vm_compute; reflexivity.
Defined.

(** X4: [UploadFile] on a local path that does not exist returns the error
    ["<path> not found"] after the one [os.Stat]: nothing is opened and no
    request is made. *)
Theorem UploadFile_missing_file :
  ∀ (h : env) (g : GorjunServer) (filename : string),
    IsNotExist (h _ (Stat filename)) = true →
    run h (UploadFile g filename)
    = ([Call (Stat filename)],
       Returned (g, "", Some (errorString (filename +:+ " not found")))).
Proof.
  intros h g filename Hstat. unfold UploadFile.
  by rewrite run_trigger, Hstat.
Qed.

(** X4 on an empty disk. *)
Lemma UploadFile_missing_file_witness :
  run (world_env offline) (UploadFile user_session "/tmp/libgorjun-test")
  = ([Call (Stat "/tmp/libgorjun-test")],
     Returned (user_session, "",
               Some (errorString "/tmp/libgorjun-test not found"))).
Proof.
  apply (UploadFile_missing_file (world_env offline) user_session
           "/tmp/libgorjun-test").
  vm_compute. reflexivity.
Defined.

(** X5: the entity [getKeyByEmail] returns does not depend on the order in
    which the [range] over the Go map delivers the identities of an
    entity: the loop run with any other order of the same identities finds
    the same entity. *)
Theorem getKeyByEmail_any_identity_order :
  ∀ (g : GorjunServer) (keyring : openpgp.EntityList) (email : string)
    (order : openpgp.Entity -> list openpgp.Identity),
    (∀ entity, order entity ≡ₚ identity_values entity) →
    List.find (λ entity, identities_have (order entity) email) keyring
    = getKeyByEmail g keyring email.
Proof.
  intros g keyring email order Horder.
  induction keyring as [| entity rest IH]; [reflexivity |]. simpl.
  rewrite (identities_have_Permutation _ _ email (Horder entity)).
  by destruct (identities_have (identity_values entity) email).
Qed.

(** X5 with the identities of every entity delivered in reverse. *)
Lemma getKeyByEmail_any_identity_order_witness :
  List.find
    (λ entity, identities_have (reverse (identity_values entity))
                 "email@example.com")
    [entity_for "other@example.com" None; entity_for "email@example.com" None]
  = getKeyByEmail user_session
      [entity_for "other@example.com" None; entity_for "email@example.com" None]
      "email@example.com".
Proof.
  apply (getKeyByEmail_any_identity_order user_session
           [entity_for "other@example.com" None;
            entity_for "email@example.com" None]
           "email@example.com" (λ entity, reverse (identity_values entity))).
  intros entity. apply reverse_Permutation.
Defined.

(** X6: once its request is built and answered, [RemoveFileByID] returns
    [nil] on status 200 and otherwise an error that carries the status
    line; the session is not changed. *)
Theorem RemoveFileByID_by_status :
  ∀ (h : env) (g : GorjunServer) (ID : string)
    (req : http.Request) (res : http.Response),
    h _ (NewRequest "DELETE" (delete_url g ID (Token g)) None) = Ok req →
    h _ (ClientDo req) = Ok res →
    (run h (RemoveFileByID g ID)).2
    = if (http.StatusCode res =? 200)%Z then Returned (g, None)
      else Returned (g, Some (errorString
                                ("Can't remove file - HTTP request returned "
                                   +:+ http.Status res +:+ " code"))).
Proof.
  intros h g ID req res Hnew Hdo.
  pose proof (run_RemoveFileByID h g ID) as Hrun. cbv zeta in Hrun.
  by rewrite Hrun, Hnew, Hdo.
Qed.

(** X6 at a server that answers the deletion with status 200. *)
Lemma RemoveFileByID_by_status_witness :
  (run (world_env (answering "" (Ok []))) (RemoveFileByID user_session "id-1")).2
  = Returned (user_session, None).
Proof.
  apply (RemoveFileByID_by_status (world_env (answering "" (Ok [])))
           user_session "id-1"
           {| http.Method := "DELETE";
              http.URL := delete_url user_session "id-1" "";
              http.Header := ∅; http.Request_Body := None |}
           (ok_response 0)).
  - vm_compute. reflexivity.
  - vm_compute. reflexivity.
Defined.

(** ** Calls and traces *)

Section call_facts.
Context {A B : Type}.

Lemma all_calls_run (h : env) (P : call -> Prop) (p : prog A) :
  all_calls P p → Forall P (run h p).1.
Proof.
  induction p as [a | msg | X e k IH]; simpl; [constructor | constructor |].
  intros [He Hk]. constructor; [exact He | apply IH, Hk].
Qed.

Lemma all_calls_bind (P : call -> Prop) (p : prog A) (f : A -> prog B) :
  all_calls P p → (∀ a, all_calls P (f a)) → all_calls P (bind p f).
Proof.
  intros Hp Hf. induction p as [a | msg | X e k IH]; simpl; [apply Hf | done |].
  destruct Hp as [He Hk]. split; [exact He |]. intros x. apply IH, Hk.
Qed.

Lemma all_calls_defer_Close (P : call -> Prop) (f : option File)
    (body : prog A) :
  (∀ fd, f = Some fd → P (Call (FileClose fd))) →
  all_calls P body → all_calls P (defer (Close f) body).
Proof.
  intros Hf. induction body as [a | msg | X e k IH]; simpl.
  - intros _. destruct f as [fd |]; simpl; auto.
  - intros _. destruct f as [fd |]; simpl; auto.
  - intros [He Hk]. split; [exact He |]. intros x. apply IH, Hk.
Qed.

(** The calls of a body under a deferred [Close]: those of the body, then
    the close. *)
Lemma run_defer_Close_calls (h : env) (f : option File) (body : prog A) :
  (run h (defer (Close f) body)).1
  = (run h body).1 ++ match f with
                      | Some fd => [Call (FileClose fd)]
                      | None => []
                      end.
Proof.
  induction body as [a | msg | X e k IH]; simpl.
  - by destruct f.
  - by destruct f.
  - by rewrite IH.
Qed.
End call_facts.

Lemma opened_app (h : env) (t1 t2 : list call) :
  opened h (t1 ++ t2) = opened h t1 ++ opened h t2.
Proof. apply bind_app. Qed.

Lemma closed_app (t1 t2 : list call) :
  closed (t1 ++ t2) = closed t1 ++ closed t2.
Proof. apply bind_app. Qed.

(** A trace of calls that are neither [Open] nor [FileClose] opens and
    closes nothing. *)
Lemma no_file_calls (h : env) (t : list call) :
  Forall (λ c, opens h c = [] ∧ closes c = []) t →
  opened h t = [] ∧ closed t = [].
Proof.
  induction 1 as [| c t [Ho Hc] _ [IHo IHc]]; [done |].
  unfold opened, closed in *. cbn. by rewrite Ho, Hc, IHo, IHc.
Qed.

(** ** Signing is local and releases its files *)

Lemma sign_with_key_calls (g : GorjunServer) (token : string)
    (privateKey : openpgp.Entity) :
  all_calls (λ c, is_key_call c = true) (sign_with g token privateKey).
Proof.
  unfold sign_with. destruct (negb (String.eqb (Passphrase g) "")); cbn.
  - destruct (openpgp.PrivateKey privateKey); cbn; [| done].
    split; [done |]. intros r. split; [done |]. by intros [].
  - split; [done |]. by intros [].
Qed.

Lemma sign_with_secring_key_calls (g : GorjunServer) (token : string) :
  all_calls (λ c, is_key_call c = true) (sign_with_secring g token).
Proof.
  unfold sign_with_secring. cbn. split; [done |]. intros priFile.
  apply all_calls_defer_Close; [done |].
  destruct priFile as [priFile | err]; cbn; [| done].
  split; [done |]. intros [secring | err]; [| done].
  destruct (getKeyByEmail g secring (Email g)); [| done].
  apply sign_with_key_calls.
Qed.

Lemma SignToken_key_calls (g : GorjunServer) (token : string) :
  all_calls (λ c, is_key_call c = true) (SignToken g token).
Proof.
  unfold SignToken. destruct (String.eqb (GPGDirectory g) ""); [done |].
  cbn. split; [done |]. intros err1. split; [done |]. intros err2.
  destruct (IsNotExist err2); [done |].
  cbn. split; [done |]. intros pukFile.
  apply all_calls_defer_Close; [done |].
  destruct pukFile as [pukFile | err]; cbn; [| done].
  split; [done |]. intros [pubring | err]; [| done].
  destruct (getKeyByEmail g pubring (Email g)); [| done].
  apply sign_with_secring_key_calls.
Qed.

Lemma opened_cons (h : env) (c : call) (t : list call) :
  opened h (c :: t) = opens h c ++ opened h t.
Proof. reflexivity. Qed.

Lemma closed_cons (c : call) (t : list call) :
  closed (c :: t) = closes c ++ closed t.
Proof. reflexivity. Qed.

Lemma sign_with_no_files (h : env) (g : GorjunServer) (token : string)
    (privateKey : openpgp.Entity) :
  opened h (run h (sign_with g token privateKey)).1 = []
  ∧ closed (run h (sign_with g token privateKey)).1 = [].
Proof.
  apply no_file_calls, all_calls_run.
  unfold sign_with. destruct (negb (String.eqb (Passphrase g) "")); cbn.
  - destruct (openpgp.PrivateKey privateKey); cbn; [| done].
    split; [done |]. intros r. split; [done |]. by intros [].
  - split; [done |]. by intros [].
Qed.

Lemma sign_with_secring_closes (h : env) (g : GorjunServer) (token : string) :
  closed (run h (sign_with_secring g token)).1
  = reverse (opened h (run h (sign_with_secring g token)).1).
Proof.
  unfold sign_with_secring. rewrite run_trigger. cbn [fst].
  rewrite run_defer_Close_calls, opened_cons, closed_cons, opened_app, closed_app.
  cbn [opens closes app].
  destruct (h _ (Open _)) as [priFile | err] eqn:Hopen; cbn [file_of].
  - rewrite run_trigger. cbn [fst]. rewrite opened_cons, closed_cons.
    cbn [opens closes app].
    assert (opened h [Call (FileClose priFile)] = []) as -> by reflexivity.
    assert (closed [Call (FileClose priFile)] = [priFile]) as -> by reflexivity.
    rewrite app_nil_r, reverse_cons. f_equal.
    destruct (h _ (ReadKeyRing priFile)) as [secring | err]; [| done].
    destruct (getKeyByEmail g secring (Email g)); [| done].
    destruct (sign_with_no_files h g token e) as [-> ->]. done.
  - done.
Qed.

(** X7: whatever the environment answers, every call [SignToken] makes is
    to the file system or to [openpgp] ([os.Stat], [os.Open], [Close],
    [ReadKeyRing], [Decrypt], [ArmoredDetachSign]): signing makes no
    request to the server. *)
Theorem SignToken_is_local :
  ∀ (h : env) (g : GorjunServer) (token : string),
    Forall (λ c, is_key_call c = true) (run h (SignToken g token)).1.
Proof. intros h g token. apply all_calls_run, SignToken_key_calls. Qed.

(** X8: on every path of [SignToken], a return with or without error or a
    panic, the files it has opened are all closed when it ends, the last
    one opened first. *)
Theorem SignToken_closes_files :
  ∀ (h : env) (g : GorjunServer) (token : string),
    closed (run h (SignToken g token)).1
    = reverse (opened h (run h (SignToken g token)).1).
Proof.
  intros h g token. unfold SignToken.
  destruct (String.eqb (GPGDirectory g) ""); [done |].
  rewrite run_trigger. cbn [fst]. rewrite opened_cons, closed_cons.
  cbn [opens closes app].
  rewrite run_trigger. cbn [fst]. rewrite opened_cons, closed_cons.
  cbn [opens closes app].
  destruct (IsNotExist (h _ (Stat _))); [done |].
  rewrite run_trigger. cbn [fst].
  rewrite run_defer_Close_calls, opened_cons, closed_cons, opened_app, closed_app.
  cbn [opens closes app].
  destruct (h _ (Open _)) as [pukFile | err] eqn:Hopen; cbn [file_of]; [| done].
  rewrite run_trigger. cbn [fst]. rewrite opened_cons, closed_cons.
  cbn [opens closes app].
  assert (opened h [Call (FileClose pukFile)] = []) as -> by reflexivity.
  assert (closed [Call (FileClose pukFile)] = [pukFile]) as -> by reflexivity.
  rewrite app_nil_r, reverse_cons. f_equal.
  destruct (h _ (ReadKeyRing pukFile)) as [pubring | err]; [| done].
  destruct (getKeyByEmail g pubring (Email g)); [| done].
  apply sign_with_secring_closes.
Qed.

(** ** Upload *)

(** X9: on every path of [UploadFile] the local file, once opened, is
    closed when the method ends; the body of the server's response is
    never closed. *)
Theorem UploadFile_closes_file :
  ∀ (h : env) (g : GorjunServer) (filename : string),
    closed (run h (UploadFile g filename)).1
    = opened h (run h (UploadFile g filename)).1
    ∧ closed_bodies (run h (UploadFile g filename)).1 = [].
Proof.
  intros h g filename. unfold UploadFile, opened, closed, closed_bodies. cbn.
  destruct (IsNotExist (h _ (Stat filename))); cbn; [done |].
  destruct (h _ (Open filename)) as [f | err]; cbn;
    [| done].
  destruct (h _ (CreateFormFile (h _ NewWriter) "file"
                   (filepath.Base filename))) as [fw | err]; cbn;
    [| done].
  destruct (h _ (Copy fw f)) as [n | err]; cbn; [| done].
  destruct (h _ (CreateFormField (h _ NewWriter) "token")) as [fw' | err]; cbn;
    [| done].
  destruct (h _ (PartWrite fw' (Token g))) as [n' | err]; cbn;
    [| done].
  destruct (h _ (NewRequest "POST" _ _)) as [req | err]; cbn;
    [| done].
  destruct (h _ (ClientDo _)) as [res | err]; cbn; [| done].
  destruct (negb _); cbn; [done |].
  destruct (h _ (ReadAll _)) as [response | err]; cbn; done.
Qed.


(** ** Response bodies *)

(** X11: the four methods that read a response body, [GetAuthTokenCode],
    [GetActiveToken], [ListUserFiles] and [GetFileByName], close the body
    of every response they receive, also when reading or decoding it
    fails; [RemoveFileByID] never closes the body of the response it
    receives. *)
Theorem response_bodies_closed :
  ∀ (h : env) (g : GorjunServer) (signed filename ID : string),
    closed_bodies (run h (GetAuthTokenCode g)).1
    = received h (run h (GetAuthTokenCode g)).1
    ∧ closed_bodies (run h (GetActiveToken g signed)).1
      = received h (run h (GetActiveToken g signed)).1
    ∧ closed_bodies (run h (ListUserFiles g)).1
      = received h (run h (ListUserFiles g)).1
    ∧ closed_bodies (run h (GetFileByName g filename)).1
      = received h (run h (GetFileByName g filename)).1
    ∧ closed_bodies (run h (RemoveFileByID g ID)).1 = [].
Proof.
  intros h g signed filename ID. unfold closed_bodies, received.
  split; [| split; [| split; [| split]]].
  - unfold GetAuthTokenCode. cbn.
    destruct (h _ (HttpGet _)) as [resp | err]; cbn; [| done].
    by destruct (h _ (ReadAll _)).
  - pose proof (run_GetActiveToken h g signed) as Hrun. cbv zeta in Hrun.
    rewrite Hrun.
    destruct (h _ (HttpPost _ _ _)) as [resp | err] eqn:Hpost;
      cbn [fst mbind list_bind closes_body receives app]; by rewrite Hpost.
  - unfold ListUserFiles, read_files. cbn.
    destruct (h _ (HttpGet _)) as [resp | err]; cbn; [| done].
    destruct (h _ (ReadAll _)) as [data | err]; cbn; [| done].
    by destruct (h _ (JsonUnmarshal _)).
  - unfold GetFileByName, read_files. cbn.
    destruct (h _ (HttpGet _)) as [resp | err]; cbn; [| done].
    destruct (h _ (ReadAll _)) as [data | err]; cbn; [| done].
    by destruct (h _ (JsonUnmarshal _)).
  - unfold RemoveFileByID. cbn.
    destruct (h _ (NewRequest _ _ _)) as [req | err]; cbn; [| done].
    destruct (h _ (ClientDo _)) as [res | err]; cbn; [| done].
    by destruct (negb _).
Qed.

(** ** Lookups *)

(** X12: [ListUserFiles] and [GetFileByName] never panic and never change
    the session, and whenever they return an error the list they return
    is empty: no partial result comes with an error. *)
Theorem lookups_return_list_or_error :
  ∀ (h : env) (g : GorjunServer) (filename : string),
    match (run h (ListUserFiles g)).2 with
    | Returned (g', files, err) => g' = g ∧ (err ≠ None → files = [])
    | Panicked _ => False
    end
    ∧ match (run h (GetFileByName g filename)).2 with
      | Returned (g', files, err) => g' = g ∧ (err ≠ None → files = [])
      | Panicked _ => False
      end.
Proof.
  intros h g filename. split.
  - unfold ListUserFiles, read_files. cbn.
    destruct (h _ (HttpGet _)) as [resp | err]; cbn; [| done].
    destruct (h _ (ReadAll _)) as [data | err]; cbn; [| done].
    by destruct (h _ (JsonUnmarshal _)).
  - unfold GetFileByName, read_files. cbn.
    destruct (h _ (HttpGet _)) as [resp | err]; cbn; [| done].
    destruct (h _ (ReadAll _)) as [data | err]; cbn; [| done].
    by destruct (h _ (JsonUnmarshal _)).
Qed.

(** ** The handshake as a whole *)

(** A challenge that is read is stored. *)
Lemma GetAuthTokenCode_stores (h : env) (g : GorjunServer) (code : string) :
  challenge_body h g = Some code →
  (run h (GetAuthTokenCode g)).2 = Returned (set_TokenCode code g, None).
Proof.
  unfold challenge_body, challenge_url, GetAuthTokenCode. rewrite run_trigger.
  destruct (h _ (HttpGet _)) as [resp | err]; [| discriminate].
  rewrite run_trigger.
  destruct (h _ (ReadAll _)) as [data | err]; [| discriminate].
  by intros [= ->].
Qed.

(** An answer of 64 bytes is stored. *)
Lemma GetActiveToken_stores (h : env) (g : GorjunServer)
    (signed token : string) :
  token_exchange_body h g (SignedEnvelope (TokenCode g) signed) = Some token →
  String.length token = 64%nat →
  (run h (GetActiveToken g signed)).2 = Returned (set_Token token g, None).
Proof.
  intros Hbody Hlen.
  pose proof (run_GetActiveToken h g signed) as Hrun. cbv zeta in Hrun.
  unfold token_exchange_body in Hbody. rewrite Hrun.
  destruct (h _ (HttpPost _ _ _)) as [resp | err]; [| discriminate Hbody].
  destruct (h _ (ReadAll _)) as [data | err]; [| discriminate Hbody].
  injection Hbody as ->. cbn [snd]. by rewrite Hlen.
Qed.

(** The handshake, step by step. *)
Lemma run_handshake (h : env) (g : GorjunServer) :
  run h (handshake g) =
    match (run h (GetAuthTokenCode g)).2 with
    | Returned (g1, Some err) =>
        ((run h (GetAuthTokenCode g)).1, Returned (g1, Some err))
    | Returned (g1, None) =>
        match (run h (SignToken g1 (TokenCode g1))).2 with
        | Returned (g2, sign, Some err) =>
            ((run h (GetAuthTokenCode g)).1
               ++ (run h (SignToken g1 (TokenCode g1))).1,
             Returned (g2, Some err))
        | Returned (g2, sign, None) =>
            ((run h (GetAuthTokenCode g)).1
               ++ (run h (SignToken g1 (TokenCode g1))).1
               ++ (run h (GetActiveToken g2 sign)).1,
             match (run h (GetActiveToken g2 sign)).2 with
             | Returned (g3, err) => Returned (g3, err)
             | Panicked msg => Panicked msg
             end)
        | Panicked msg =>
            ((run h (GetAuthTokenCode g)).1
               ++ (run h (SignToken g1 (TokenCode g1))).1,
             Panicked msg)
        end
    | Panicked msg => ((run h (GetAuthTokenCode g)).1, Panicked msg)
    end.
Proof.
  unfold handshake. change (mbind ?f ?p) with (bind p f). rewrite run_bind.
  destruct (run h (GetAuthTokenCode g)) as [t1 [[g1 [err |]] | msg]];
    cbn [fst snd]; [by rewrite app_nil_r | | done].
  change (mbind ?f ?p) with (bind p f). rewrite run_bind.
  destruct (run h (SignToken g1 (TokenCode g1)))
    as [t2 [[[g2 sign] [err |]] | msg]]; cbn [fst snd];
    [by rewrite app_nil_r | | done].
  change (mbind ?f ?p) with (bind p f). rewrite run_bind.
  destruct (run h (GetActiveToken g2 sign)) as [t3 [[g3 [err |]] | msg]];
    cbn [fst snd]; by rewrite ?app_nil_r.
Qed.

(** X13: the three steps compose: when the server issues the challenge
    [code], [SignToken] signs [code] giving [sign], and the server answers
    the envelope of [code] and [sign] with a token of 64 bytes, the
    handshake returns no error and leaves [code] in [TokenCode] and that
    token in [Token]. *)
Theorem handshake_succeeds :
  ∀ (h : env) (g : GorjunServer) (code sign token : string),
    challenge_body h g = Some code →
    (run h (SignToken (set_TokenCode code g) code)).2
    = Returned (set_TokenCode code g, sign, None) →
    token_exchange_body h (set_TokenCode code g) (SignedEnvelope code sign)
    = Some token →
    String.length token = 64%nat →
    (run h (handshake g)).2
    = Returned (set_Token token (set_TokenCode code g), None).
Proof.
  intros h g code sign token Hcode Hsign Htoken Hlen.
  rewrite run_handshake, (GetAuthTokenCode_stores h g code Hcode).
  cbn [TokenCode set_TokenCode]. rewrite Hsign. cbn [snd].
  by rewrite (GetActiveToken_stores h (set_TokenCode code g) sign token
                Htoken Hlen).
Qed.

(** X13 in a world whose server issues a challenge and accepts its
    signature, with the passphrase of the key given. *)
Lemma handshake_succeeds_witness :
  (run (world_env (live code32 token64))
     (handshake (set_Passphrase "s3cret" user_session))).2
  = Returned (set_Token token64
                (set_TokenCode code32 (set_Passphrase "s3cret" user_session)),
              None).
Proof.
  apply (handshake_succeeds (world_env (live code32 token64))
           (set_Passphrase "s3cret" user_session) code32
           (toy_signature code32) token64).
  - vm_compute. reflexivity.
  - vm_compute. reflexivity.
  - vm_compute. reflexivity.
  - vm_compute. reflexivity.
Defined.

(** X14: when the challenge is read and signing fails, the handshake
    returns the signing error after the calls of the challenge request and
    of [SignToken], all of the latter local, so nothing is posted; the
    session holds the new challenge in [TokenCode] and still the [Token] it
    had before. *)
Theorem handshake_stops_at_signing :
  ∀ (h : env) (g : GorjunServer) (code sign : string) (err : error),
    challenge_body h g = Some code →
    (run h (SignToken (set_TokenCode code g) code)).2
    = Returned (set_TokenCode code g, sign, Some err) →
    run h (handshake g)
    = ((run h (GetAuthTokenCode g)).1
         ++ (run h (SignToken (set_TokenCode code g) code)).1,
       Returned (set_TokenCode code g, Some err))
    ∧ Token (set_TokenCode code g) = Token g
    ∧ Forall (λ c, is_key_call c = true)
        (run h (SignToken (set_TokenCode code g) code)).1.
Proof.
  intros h g code sign err Hcode Hsign. split; [| split; [done |]].
  - rewrite run_handshake, (GetAuthTokenCode_stores h g code Hcode).
    cbn [TokenCode set_TokenCode]. by rewrite Hsign.
  - apply all_calls_run, SignToken_key_calls.
Qed.

(** X14 in a world whose server issues a challenge and whose disk holds no
    keyring. *)
Lemma handshake_stops_at_signing_witness :
  run (world_env (answering code32 (Ok []))) (handshake user_session)
  = ((run (world_env (answering code32 (Ok []))) 
        (GetAuthTokenCode user_session)).1
       ++ (run (world_env (answering code32 (Ok [])))
             (SignToken (set_TokenCode code32 user_session) code32)).1,
     Returned (set_TokenCode code32 user_session,
               Some (errorString "Can't find pubring.gpg nor pubring.kbx"))).
Proof.
  apply (handshake_stops_at_signing (world_env (answering code32 (Ok [])))
           user_session code32 ""
           (errorString "Can't find pubring.gpg nor pubring.kbx")).
  - vm_compute. reflexivity.
  - vm_compute. reflexivity.
Defined.

(** [GetActiveToken] returns no error only with a token of 64 bytes. *)
Lemma GetActiveToken_success_length (g : GorjunServer) (signed : string) :
  always (λ r, r.2 = None → String.length (Token r.1) = 64%nat)
    (GetActiveToken g signed).
Proof.
  unfold GetActiveToken. cbn [mbind prog_bind bind trigger always].
  intros [resp | err]; cbn [mbind prog_bind bind trigger always]; [| done].
  intros [data | err] []; [| done].
  cbn [Token set_Token].
  destruct (String.length data =? 64)%nat eqn:Hlen; cbn; [| done].
  intros _. by apply Nat.eqb_eq.
Qed.

Lemma handshake_success_length (g : GorjunServer) :
  always (λ r, r.2 = None → String.length (Token r.1) = 64%nat) (handshake g).
Proof.
  unfold handshake. change (mbind ?f ?p) with (bind p f).
  apply always_bind.
  eapply always_mono; [| apply GetAuthTokenCode_keeps_identity].
  intros [g1 [err |]] _; [done |].
  change (mbind ?f ?p) with (bind p f). apply always_bind.
  eapply always_mono; [| apply SignToken_keeps_receiver].
  intros [[g2 sign] [err |]] _; [done |].
  change (mbind ?f ?p) with (bind p f). apply always_bind.
  eapply always_mono; [| apply GetActiveToken_success_length].
  intros [g3 [err |]] Hlen; [done |]. exact Hlen.
Qed.

(** X15: whenever [AuthenticateUser] returns no error, the [Token] of the
    session is 64 bytes long. *)
Theorem AuthenticateUser_success_token :
  ∀ (h : env) (g : GorjunServer) (username email passphrase gpgdir : string),
    match (run h (AuthenticateUser g username email passphrase gpgdir)).2 with
    | Returned (g', None) => String.length (Token g') = 64%nat
    | _ => True
    end.
Proof.
  intros h g username email passphrase gpgdir.
  set (g1 := set_GPGDirectory
               (if String.eqb gpgdir "" then h _ (Getenv "HOME") +:+ "/.gnupg"
                else gpgdir)
               (set_Passphrase passphrase
                  (set_Email email (set_Username username g)))).
  assert ((run h (AuthenticateUser g username email passphrase gpgdir)).2
          = (run h (handshake g1)).2) as ->.
  { unfold AuthenticateUser, g1. by destruct (String.eqb gpgdir ""). }
  destruct (run h (handshake g1)).2 as [[g' [err |]] | msg] eqn:Hrun;
    [done | | done].
  by apply (always_run h _ _ _ (handshake_success_length g1) Hrun).
Qed.

(** ** A ring entity without private key *)

(** X16: when the entity found in the private ring carries no private key
    ([PrivateKey] is [nil]) and a passphrase is set, [SignToken] does not
    return: the call of [Decrypt] on the [nil] key panics. *)
Theorem SignToken_panics_without_private_key :
  ∀ (h : env) (g : GorjunServer) (token : string)
    (publicKey privateKey : openpgp.Entity),
    ResolvedKeyPair h g publicKey privateKey →
    openpgp.PrivateKey privateKey = None →
    Passphrase g ≠ "" →
    (run h (SignToken g token)).2 = Panicked nil_dereference.
Proof.
  intros h g token publicKey privateKey
    (pubring & secring & Hpub & Hpublic & Hsec & Hprivate) Hnil Hpass.
  rewrite (SignToken_outcome h g token pubring Hpub), Hpublic.
  rewrite (sign_with_secring_outcome h g token secring Hsec), Hprivate.
  rewrite sign_with_outcome, Hnil. cbv zeta.
  apply String.eqb_neq in Hpass. by rewrite Hpass.
Qed.

(** X16 on a private ring that holds the user's public key only. *)
Lemma SignToken_panics_without_private_key_witness :
  (run (world_env keyless_directory)
     (SignToken (set_Passphrase "s3cret" user_session) "111")).2
  = Panicked "runtime error: invalid memory address or nil pointer dereference".
Proof.
  apply (SignToken_panics_without_private_key (world_env keyless_directory)
           (set_Passphrase "s3cret" user_session) "111"
           (entity_for "email@example.com" None)
           (entity_for "email@example.com" None)).
  - exists [entity_for "email@example.com" None],
      [entity_for "email@example.com" None].
    split; [| split; [| split]].
    + split; [discriminate |]. split; [left; vm_compute; reflexivity |].
      exists 0%nat. split; vm_compute; reflexivity.
    + vm_compute. reflexivity.
    + exists 1%nat. split; vm_compute; reflexivity.
    + vm_compute. reflexivity.
  - reflexivity.
  - discriminate.
Defined.

(** ** decodePrivateKey *)

(** X17: [decodePrivateKey] returns a key and no error exactly when the
    private keyring opens, decodes as an armored block of type
    ["PGP PRIVATE KEY BLOCK"] and the first packet of the block is a
    private key, and the key returned is that packet; and it returns no key
    exactly when it returns an error. *)
Theorem decodePrivateKey_result :
  ∀ (h : decode.env) (g : GorjunServer),
    (∀ key,
       (decode.run h (decode.decodePrivateKey g)).2 = (Some key, None)
       ↔ ∃ in_ block,
           h _ (decode.Open (GPGDirectory g +:+ "/secring.gpg")) = Ok in_
           ∧ h _ (decode.ArmorDecode in_) = Ok block
           ∧ armor.Type_ block = "PGP PRIVATE KEY BLOCK"
           ∧ h _ (decode.Next (armor.Body block))
             = Ok (decode.PrivateKeyPacket key))
    ∧ ((decode.run h (decode.decodePrivateKey g)).2.1 = None
       ↔ (decode.run h (decode.decodePrivateKey g)).2.2 ≠ None).
Proof.
  intros h g. unfold decode.decodePrivateKey. cbn.
  destruct (h _ (decode.Open _)) as [in_ | err] eqn:Hopen; cbn.
  2: { split; [| done]. intros key. split; [done |].
       by intros (? & ? & [=] & _). }
  destruct (h _ (decode.ArmorDecode in_)) as [block | err] eqn:Hdecode; cbn.
  2: { split; [| done]. intros key. split; [done |].
       intros (? & ? & [= <-] & Hd & _). by rewrite Hdecode in Hd. }
  destruct (String.eqb_spec (armor.Type_ block) decode.PrivateKeyType)
    as [Htype | Htype]; cbn.
  2: { split; [| done]. intros key. split; [done |].
       intros (? & ? & [= <-] & Hd & Ht & _).
       rewrite Hdecode in Hd. injection Hd as <-. done. }
  destruct (h _ (decode.Next _)) as [[key' | tag] | err] eqn:Hnext; cbn.
  - split; [| split; [done | by intros []]].
    intros key. split.
    + intros [= <-]. by exists in_, block.
    + intros (? & ? & [= <-] & Hd & _ & Hn).
      rewrite Hdecode in Hd. injection Hd as <-.
      rewrite Hnext in Hn. by injection Hn as <-.
  - split; [| done]. intros key. split; [done |].
    intros (? & ? & [= <-] & Hd & _ & Hn).
    rewrite Hdecode in Hd. injection Hd as <-. by rewrite Hnext in Hn.
  - split; [| done]. intros key. split; [done |].
    intros (? & ? & [= <-] & Hd & _ & Hn).
    rewrite Hdecode in Hd. injection Hd as <-. by rewrite Hnext in Hn.
Qed.

(** X18: [decodePrivateKey] opens the private keyring first and never
    closes it, on any path. *)
Theorem decodePrivateKey_leaves_file_open :
  ∀ (h : decode.env) (g : GorjunServer),
    decode.closed (decode.run h (decode.decodePrivateKey g)).1 = []
    ∧ head (decode.run h (decode.decodePrivateKey g)).1
      = Some (decode.Call (decode.Open (GPGDirectory g +:+ "/secring.gpg"))).
Proof.
  intros h g. unfold decode.decodePrivateKey, decode.closed. cbn.
  destruct (h _ (decode.Open _)) as [in_ | err]; cbn; [| done].
  destruct (h _ (decode.ArmorDecode in_)) as [block | err]; cbn; [| done].
  destruct (negb _); cbn; [done |].
  by destruct (h _ (decode.Next _)) as [[key' | tag] | err].
Qed.

(** An armored private keyring whose first packet is a key. *)
Example decodePrivateKey_reads_key :
  decode.run
    (decode.one_file "/home/user/.gnupg/secring.gpg"
       (Ok {| armor.Type_ := "PGP PRIVATE KEY BLOCK"; armor.Body := 7 |})
       (Ok (decode.PrivateKeyPacket (protected_key "s3cret"))))
    (decode.decodePrivateKey user_session)
  = ([decode.Call (decode.Open "/home/user/.gnupg/secring.gpg");
      decode.Call (decode.ArmorDecode 3); decode.Call (decode.Next 7)],
     (Some (protected_key "s3cret"), None)).
Proof. reflexivity. Qed.

(** ** Removal after a failed lookup *)

(** X19: when the lookup of [RemoveFile] fails, no deletion is requested:
    the calls are those of the lookup, the session is as the lookup left
    it, and the error returned is the lookup's, behind the prefix
    ["Failed to get file: "]. *)
Theorem RemoveFile_lookup_error :
  ∀ (h : env) (g : GorjunServer) (filename : string)
    (files : list GorjunFile) (err : error),
    (run h (GetFileByName g filename)).2 = Returned (g, files, Some err) →
    run h (RemoveFile g filename)
    = ((run h (GetFileByName g filename)).1,
       Returned (g, Some (errorString ("Failed to get file: " +:+ Error err)))).
Proof.
  intros h g filename files err Hlookup.
  rewrite run_RemoveFile, Hlookup. by destruct files.
Qed.

(** X19 in a world without network. *)
Lemma RemoveFile_lookup_error_witness :
  run (world_env offline) (RemoveFile user_session "libgorjun-test")
  = ([Call (HttpGet
              "https://cdn.subut.ai:8338/kurjun/rest/raw/info?name=libgorjun-test")],
     Returned (user_session,
               Some (errorString
                       "Failed to get file: Failed to retrieve file information from cdn.subut.ai:8338: dial tcp: no route to host"))).
Proof.
  apply (RemoveFile_lookup_error (world_env offline) user_session
           "libgorjun-test" []
           (errorString
              "Failed to retrieve file information from cdn.subut.ai:8338: dial tcp: no route to host")).
  vm_compute. reflexivity.
Defined.
